(** * Air-ticket booking backend: the route handlers over a model of the store

    The Express routers of [routes/user.route.js], [routes/flight.route.js]
    and [routes/booking.route.js] are embedded as functions from a database
    state to a response and a new database state.  Every handler is an
    [async] function whose body is a [try { ... } catch (error) { ... }]:
    the bodies are written in a small state-and-exception monad, the
    [catch] clause is the second argument of [route].

    What lies outside the repository is modelled as follows.
    - Mongoose collections are finite maps from [_id] to the schema fields;
      a storage call throws when the connection opened by [connectDB] is
      not usable.
    - Identifiers are ObjectIds (96-bit numbers).  A path parameter or body
      field that does not cast to an ObjectId is outside the model, and so
      are body fields of the wrong JSON type and bodies that carry update
      operators instead of fields.
    - [bcrypt] is a pair of unknown functions (section variables); its salt,
      the identifier drawn by [new Model(...)] and the clock read by
      [jwt.sign] are inputs of the handlers that use them.
    - [console.error] writes to the log only and is left out. *)

From Stdlib Require Import ZArith NArith String Ascii List.
From stdpp Require Import gmap strings list fin_maps.

Local Open Scope string_scope.
Local Open Scope Z_scope.

#[local] Set Warnings "-register-all".

(** ** Data model *)

Definition ObjectId : Type := N.

(** Modelled from the spec: the schema of [models/user.model.js], which is
    not part of the sources: a User has a name, an email and a password,
    all strings. *)
Record User : Type := mkUser {
  name : string;
  email : string;
  password : string
}.

(** Modelled from the spec: the schema of [models/flight.model.js]: the
    eight fields the handlers and their documentation list.  Timestamps are
    milliseconds, [price] is carried as an opaque number: the handlers do no
    arithmetic on either. *)
Record Flight : Type := mkFlight {
  airline : string;
  flightNo : string;
  departure : string;
  arrival : string;
  departureTime : Z;
  arrivalTime : Z;
  seats : Z;
  price : Z
}.

(** Modelled from the spec: the schema of [models/booking.model.js]: two
    references, by identifier. *)
Record Booking : Type := mkBooking {
  user : ObjectId;
  flight : ObjectId
}.

(** A stored document: its [_id] and its fields. *)
Definition Doc (A : Type) : Type := (ObjectId * A)%type.

Record Db : Type := mkDb {
  users : gmap ObjectId User;
  flights : gmap ObjectId Flight;
  bookings : gmap ObjectId Booking;
  connected : bool
}.

(** Errors a handler's [catch] clause can receive. *)
Inductive Error : Type :=
| BcryptArgumentsRequired   (* bcrypt: data and salt/hash arguments required *)
| ValidationError           (* a path of the schema is missing on save *)
| DuplicateKeyError         (* E11000 on insert *)
| StorageError              (* the connection is not usable *)
| JwtOptionError.           (* jsonwebtoken rejects the expiresIn option *)

(** A signed token: the claims of its payload and the key it is signed
    with. *)
Record Jwt : Type := mkJwt {
  jwt_userId : ObjectId;
  jwt_iat : Z;
  jwt_exp : Z;
  jwt_key : string
}.

(** ** Responses *)

Inductive Json : Type :=
| JNull
| JString (s : string)
| JNumber (z : Z)
| JObjectId (i : ObjectId)
| JToken (t : Jwt)
| JError (e : Error)
| JArray (l : list Json)
| JObject (fields : list (string * Json)).

Record Response : Type := mkResponse {
  status : Z;
  body : option Json
}.

Definition json_keys (j : Json) : list string :=
  match j with
  | JObject fields => map fst fields
  | _ => []
  end.

Definition json_field (k : string) (j : Json) : option Json :=
  match j with
  | JObject fields => snd <$> head (filter (λ kv, fst kv = k) fields)
  | _ => None
  end.

Definition json_opt {A : Type} (f : A → Json) (o : option A) : Json :=
  match o with
  | Some a => f a
  | None => JNull
  end.

Definition user_json (d : Doc User) : Json :=
  JObject [("_id", JObjectId (fst d));
           ("name", JString (name (snd d)));
           ("email", JString (email (snd d)));
           ("password", JString (password (snd d)))].

Definition flight_json (d : Doc Flight) : Json :=
  JObject [("_id", JObjectId (fst d));
           ("airline", JString (airline (snd d)));
           ("flightNo", JString (flightNo (snd d)));
           ("departure", JString (departure (snd d)));
           ("arrival", JString (arrival (snd d)));
           ("departureTime", JNumber (departureTime (snd d)));
           ("arrivalTime", JNumber (arrivalTime (snd d)));
           ("seats", JNumber (seats (snd d)));
           ("price", JNumber (price (snd d)))].

Definition booking_json (d : Doc Booking) : Json :=
  JObject [("_id", JObjectId (fst d));
           ("user", JObjectId (user (snd d)));
           ("flight", JObjectId (flight (snd d)))].

(** [res.status(c).json(j)] and [res.status(c).json()] / [.send()]. *)
Definition respond (c : Z) (j : Json) : Response := mkResponse c (Some j).
Definition respond_empty (c : Z) : Response := mkResponse c None.
Definition message (m : string) : Json := JObject [("message", JString m)].

(** ** Request bodies: a field the JSON body does not carry is [None]
    (JavaScript's [undefined] after destructuring). *)

Record UserBody : Type := mkUserBody {
  b_name : option string;
  b_email : option string;
  b_password : option string
}.

Record LoginBody : Type := mkLoginBody {
  l_email : option string;
  l_password : option string
}.

Record FlightBody : Type := mkFlightBody {
  b_airline : option string;
  b_flightNo : option string;
  b_departure : option string;
  b_arrival : option string;
  b_departureTime : option Z;
  b_arrivalTime : option Z;
  b_seats : option Z;
  b_price : option Z
}.

Record BookingBody : Type := mkBookingBody {
  b_user : option ObjectId;
  b_flight : option ObjectId
}.

(** ** The monad of handler bodies: state, and exceptions for [throw] *)

Inductive Result (A : Type) : Type :=
| Ok (a : A)
| Throw (e : Error).
Arguments Ok {A} a.
Arguments Throw {A} e.

Definition M (A : Type) : Type := Db → Result A * Db.

Definition ret {A : Type} (a : A) : M A := λ db, (Ok a, db).

Definition throw {A : Type} (e : Error) : M A := λ db, (Throw e, db).

Definition bind {A B : Type} (c : M A) (k : A → M B) : M B :=
  λ db, match c db with
        | (Ok a, db') => k a db'
        | (Throw e, db') => (Throw e, db')
        end.

Declare Scope handler_scope.
Delimit Scope handler_scope with handler.
Notation "'await' x <- c 'in' k" := (bind c (λ x, k))
  (at level 10, x name, c at level 100, k at level 200) : handler_scope.
Local Open Scope handler_scope.

(** [try { body } catch (error) { res... }]: the handler as Express runs
    it. *)
Definition route (body : M Response) (on_error : Error → Response)
  : Db → Response * Db :=
  λ db, match body db with
        | (Ok r, db') => (r, db')
        | (Throw e, db') => (on_error e, db')
        end.

(** ** Mongoose *)

Class Model (A : Type) : Type := {
  collection : Db → gmap ObjectId A;
  set_collection : gmap ObjectId A → Db → Db
}.

#[export] Instance UserModel : Model User := {|
  collection := users;
  set_collection m db := mkDb m (flights db) (bookings db) (connected db)
|}.

#[export] Instance FlightModel : Model Flight := {|
  collection := flights;
  set_collection m db := mkDb (users db) m (bookings db) (connected db)
|}.

#[export] Instance BookingModel : Model Booking := {|
  collection := bookings;
  set_collection m db := mkDb (users db) (flights db) m (connected db)
|}.

(** One round trip to the storage backend. *)
Definition storage {A : Type} (op : Db → A * Db) : M A :=
  λ db, if connected db
        then (Ok (fst (op db)), snd (op db))
        else (Throw StorageError, db).

Section Mongoose.
Context {A : Type} `{Model A}.

(** [Model.find()] *)
Definition find : M (list (Doc A)) :=
  storage (λ db, (map_to_list (collection db), db)).

(** [Model.findOne(filter)]: the first document the filter accepts. *)
Definition findOne (filter_ : A → bool) : M (option (Doc A)) :=
  storage (λ db,
    (head (filter (λ d, filter_ (snd d) = true) (map_to_list (collection db))),
     db)).

(** [Model.findById(id)]; [findById(undefined)] finds nothing. *)
Definition findById (id : option ObjectId) : M (option (Doc A)) :=
  storage (λ db,
    (match id with
     | Some i => pair i <$> collection db !! i
     | None => None
     end, db)).

(** [Model.findByIdAndDelete(id)]: the deleted document, or null. *)
Definition findByIdAndDelete (id : ObjectId) : M (option (Doc A)) :=
  storage (λ db,
    (pair id <$> collection db !! id,
     set_collection (delete id (collection db)) db)).

(** [Model.findByIdAndUpdate(id, update, { new: true })]: the document
    after the update, or null when there is none. *)
Definition findByIdAndUpdate (id : ObjectId) (update : A → A)
  : M (option (Doc A)) :=
  storage (λ db,
    match collection db !! id with
    | Some a => (Some (id, update a),
                 set_collection (<[id := update a]> (collection db)) db)
    | None => (None, db)
    end).

(** [doc.save()] of a document made by [new Model(...)]: an insert. *)
Definition save_new (d : Doc A) : M unit :=
  bind (storage (λ db, (collection db !! fst d, db)))
    (λ clash, match clash with
              | Some _ => throw DuplicateKeyError
              | None => storage (λ db,
                  (tt, set_collection (<[fst d := snd d]> (collection db)) db))
              end).

(** [doc.save()] of a document read from the store: its paths are written
    back under its [_id]. *)
Definition save (d : Doc A) : M unit :=
  storage (λ db,
    (tt, set_collection (<[fst d := snd d]> (collection db)) db)).
End Mongoose.

(** ** jsonwebtoken *)

Definition is_digit (c : ascii) : bool :=
  (48 <=? nat_of_ascii c)%nat && (nat_of_ascii c <=? 57)%nat.

Fixpoint leading_number (s : string) (acc : Z) : Z * string :=
  match s with
  | String c rest =>
      if is_digit c
      then leading_number rest (10 * acc + (Z.of_nat (nat_of_ascii c) - 48))
      else (acc, s)
  | EmptyString => (acc, s)
  end.

(** The time spans of the [expiresIn] option, in seconds: a number followed
    by a unit. *)
Definition timespan (s : string) : option Z :=
  match s with
  | String c _ =>
      if is_digit c then
        let (n, unit_) := leading_number s 0 in
        if String.eqb unit_ "s" then Some n
        else if String.eqb unit_ "m" then Some (60 * n)
        else if String.eqb unit_ "h" then Some (3600 * n)
        else if String.eqb unit_ "d" then Some (86400 * n)
        else None
      else None
  | EmptyString => None
  end.

(** [jwt.sign({ userId }, secret, { expiresIn })] at clock reading [now]
    (seconds). *)
Definition jwt_sign (userId : ObjectId) (secret expiresIn : string) (now : Z)
  : M Jwt :=
  match timespan expiresIn with
  | Some span => ret (mkJwt userId now (now + span) secret)
  | None => throw JwtOptionError
  end.

(** ** Schema checks on [new Model(...)] followed by [save()]

    Modelled from the spec: the model files are not part of the sources;
    every field of the data model is present in a stored record, so a
    document that lacks one fails validation, which the handlers answer as
    any other failure. *)

Definition new_user (id : ObjectId) (n e p : option string) : M (Doc User) :=
  match n, e, p with
  | Some n', Some e', Some p' => ret (id, mkUser n' e' p')
  | _, _, _ => throw ValidationError
  end.

Definition new_flight (id : ObjectId) (b : FlightBody) : M (Doc Flight) :=
  match b_airline b, b_flightNo b, b_departure b, b_arrival b,
        b_departureTime b, b_arrivalTime b, b_seats b, b_price b with
  | Some al, Some fn, Some dp, Some ar, Some dt, Some at_, Some st, Some pr =>
      ret (id, mkFlight al fn dp ar dt at_ st pr)
  | _, _, _, _, _, _, _, _ => throw ValidationError
  end.

Definition new_booking (id : ObjectId) (u f : option ObjectId)
  : M (Doc Booking) :=
  match u, f with
  | Some u', Some f' => ret (id, mkBooking u' f')
  | _, _ => throw ValidationError
  end.

(** ** Updates

    Mongoose (6 and later) drops from an update the keys whose value is
    [undefined], so only the keys the request carries are written. *)

Definition set_user (n e p : option string) (u : User) : User :=
  mkUser (default (name u) n) (default (email u) e) (default (password u) p).

Definition set_flight (b : FlightBody) (f : Flight) : Flight :=
  mkFlight (default (airline f) (b_airline b))
           (default (flightNo f) (b_flightNo b))
           (default (departure f) (b_departure b))
           (default (arrival f) (b_arrival b))
           (default (departureTime f) (b_departureTime b))
           (default (arrivalTime f) (b_arrivalTime b))
           (default (seats f) (b_seats b))
           (default (price f) (b_price b)).

(** [Object.assign(booking, body)]: every key the body has is copied onto
    the document. *)
Definition assign_booking (d : Doc Booking) (b : BookingBody) : Doc Booking :=
  (fst d, mkBooking (default (user (snd d)) (b_user b))
                    (default (flight (snd d)) (b_flight b))).

Definition internal_server_error (_ : Error) : Response :=
  respond 500 (message "Internal server error").

(** ** routes/flight.route.js *)

(** [flightRouter.get("/")] *)
Definition flightRouter_get : Db → Response * Db :=
  route (await flights_ <- find in
         ret (respond 200 (JArray (flight_json <$> flights_))))
        internal_server_error.

(** [flightRouter.post("/")] *)
Definition flightRouter_post (oid : ObjectId) (req_body : FlightBody)
  : Db → Response * Db :=
  route (await newFlight <- new_flight oid req_body in
         await _ <- save_new newFlight in
         ret (respond 201 (JObject [("message", JString "Flight added");
                                    ("flight", flight_json newFlight)])))
        internal_server_error.

(** [flightRouter.get("/:id")] *)
Definition flightRouter_get_id (flightId : ObjectId) : Db → Response * Db :=
  route (await flight_ <- findById (Some flightId) in
         match flight_ with
         | None => ret (respond 404 (message "Flight not found"))
         | Some fl =>
             ret (respond 200 (JObject [("Flight Data", flight_json fl)]))
         end)
        internal_server_error.

(** [flightRouter.patch("/:id")].  The handler passes [req.body] whole to
    [findByIdAndUpdate]; the embedding reads it as an update of flight
    fields, any of the eight.  A body with update operators ([$inc],
    [$unset], ...) is not such an update and has no [FlightBody]. *)
Definition flightRouter_patch (flightId : ObjectId)
    (updatedFlightData : FlightBody) : Db → Response * Db :=
  route (await updatedFlight <-
           findByIdAndUpdate flightId (set_flight updatedFlightData) in
         match updatedFlight with
         | None => ret (respond 404 (message "Flight not found"))
         | Some fl => ret (respond 200 (flight_json fl))
         end)
        internal_server_error.

(** [flightRouter.delete("/:id")] *)
Definition flightRouter_delete (flightId : ObjectId) : Db → Response * Db :=
  route (await _ <- findByIdAndDelete (A := Flight) flightId in
         ret (respond 200 (message "Flight Deleted")))
        internal_server_error.

(** ** routes/booking.route.js *)

(** [bookingRouter.get("/dashboard")]: [booking.toObject()] with its [user]
    and [flight] replaced by what the two lookups return. *)
Definition populatedBooking (booking : Doc Booking) (u : option (Doc User))
    (f : option (Doc Flight)) : Json :=
  JObject [("_id", JObjectId (fst booking));
           ("user", json_opt user_json u);
           ("flight", json_opt flight_json f)].

Definition populate (booking : Doc Booking) : M Json :=
  await u <- findById (A := User) (Some (user (snd booking))) in
  await f <- findById (A := Flight) (Some (flight (snd booking))) in
  ret (populatedBooking booking u f).

(** [Promise.all(bookings.map(f))]: the results in the order of the list,
    or the first rejection. *)
Fixpoint promise_all {A B : Type} (f : A → M B) (l : list A) : M (list B) :=
  match l with
  | [] => ret []
  | x :: rest =>
      await y <- f x in
      await ys <- promise_all f rest in
      ret (y :: ys)
  end.

Definition bookingRouter_dashboard : Db → Response * Db :=
  route (await bookings_ <- find (A := Booking) in
         await populatedBookings <- promise_all populate bookings_ in
         ret (respond 200 (JArray populatedBookings)))
        internal_server_error.

(** [bookingRouter.post("/")] *)
Definition bookingRouter_post (oid : ObjectId) (req_body : BookingBody)
  : Db → Response * Db :=
  route (await u <- findById (A := User) (b_user req_body) in
         await f <- findById (A := Flight) (b_flight req_body) in
         match u with
         | None => ret (respond 404 (message "User  not found"))
         | Some _ =>
             match f with
             | None => ret (respond 404 (message "Flight not found"))
             | Some _ =>
                 await newBooking <-
                   new_booking oid (b_user req_body) (b_flight req_body) in
                 await _ <- save_new newBooking in
                 ret (respond 201
                        (JObject [("message", JString "Flight booked");
                                  ("booking", booking_json newBooking)]))
             end
         end)
        internal_server_error.

(** [bookingRouter.patch("/dashboard/:id")] *)
Definition bookingRouter_patch (bookingId : ObjectId)
    (updatedBookingData : BookingBody) : Db → Response * Db :=
  route (await booking <- findById (A := Booking) (Some bookingId) in
         match booking with
         | None => ret (respond 404 (message "Booking not found"))
         | Some bk =>
             await _ <- save (assign_booking bk updatedBookingData) in
             ret (respond_empty 204)
         end)
        internal_server_error.

(** [bookingRouter.delete("/:id")] *)
Definition bookingRouter_delete (bookingId : ObjectId) : Db → Response * Db :=
  route (await booking <- findByIdAndDelete (A := Booking) bookingId in
         match booking with
         | None => ret (respond 404 (message "Booking not found"))
         | Some _ => ret (respond 202 (message "Booking deleted"))
         end)
        internal_server_error.

(** ** bcrypt *)

(** The two functions of the [bcrypt] package the handlers call: the hash
    of a password under a cost and a salt, and the check of a password
    against a stored hash. *)
Class Bcrypt : Type := {
  hashpw : string → Z → string → string;
  checkpw : string → string → bool
}.

(** [bcrypt.hash(data, rounds)], which draws [salt]; it rejects when [data]
    is [undefined]. *)
Definition bcrypt_hash `{Bcrypt} (data : option string) (rounds : Z)
    (salt : string) : M string :=
  match data with
  | Some d => ret (hashpw d rounds salt)
  | None => throw BcryptArgumentsRequired
  end.

(** [bcrypt.compare(data, encrypted)]; it rejects when [data] is
    [undefined]. *)
Definition bcrypt_compare `{Bcrypt} (data : option string)
    (encrypted : string) : M bool :=
  match data with
  | Some d => ret (checkpw d encrypted)
  | None => throw BcryptArgumentsRequired
  end.

(** ** routes/user.route.js *)

(** The filter [{ email }]: exact match; no stored User lacks the field, so
    an [undefined] email matches none. *)
Definition email_is (e : option string) (u : User) : bool :=
  match e with
  | Some e' => String.eqb (email u) e'
  | None => false
  end.

(** [userRouter.get("/")] *)
Definition userRouter_get : Db → Response * Db :=
  route (await data <- find in
         ret (respond 200 (JObject [("users", JArray (user_json <$> data))])))
        internal_server_error.

(** [userRouter.post("/register")] *)
Definition userRouter_register `{Bcrypt} (oid : ObjectId) (salt : string)
    (req_body : UserBody) : Db → Response * Db :=
  route (await hashPassword <- bcrypt_hash (b_password req_body) 5 salt in
         await newUser <-
           new_user oid (b_name req_body) (b_email req_body)
                    (Some hashPassword) in
         await _ <- save_new newUser in
         ret (respond 201 (JObject [("message", JString "User saved");
                                    ("newUser", user_json newUser)])))
        (λ error, respond 500 (JObject [("error", JError error)])).

(** [userRouter.post("/login")] *)
Definition userRouter_login `{Bcrypt} (now : Z) (req_body : LoginBody)
  : Db → Response * Db :=
  route (await user_ <- findOne (email_is (l_email req_body)) in
         match user_ with
         | None => ret (respond 401 (message "User not present"))
         | Some u =>
             await convertedPassword <-
               bcrypt_compare (l_password req_body) (password (snd u)) in
             await token <- jwt_sign (fst u) "secret" "1h" now in
             if convertedPassword
             then ret (respond 200
                         (JObject [("message", JString "User logged in");
                                   ("token", JToken token)]))
             else ret (respond 401 (message "password wrong"))
         end)
        internal_server_error.

(** [userRouter.delete("/:id")] *)
Definition userRouter_delete (userId : ObjectId) : Db → Response * Db :=
  route (await deletedUser <- findByIdAndDelete (A := User) userId in
         match deletedUser with
         | None => ret (respond 404 (message "User not found"))
         | Some _ => ret (respond_empty 204)
         end)
        internal_server_error.

(** [userRouter.patch("/:id")] *)
Definition userRouter_patch (userId : ObjectId) (req_body : UserBody)
  : Db → Response * Db :=
  route (await updatedUser <-
           findByIdAndUpdate userId
             (set_user (b_name req_body) (b_email req_body)
                       (b_password req_body)) in
         match updatedUser with
         | None => ret (respond 404 (message "User not found"))
         | Some _ => ret (respond_empty 204)
         end)
        internal_server_error.

(** The kinds of failure of the error taxonomy, by status code. *)
Definition NotFound (r : Response) : Prop := status r = 404.
Definition InternalError (r : Response) : Prop := status r = 500.

(** What an update does to one field: the supplied value when the request
    carries one, the value before otherwise. *)
Definition patched {V : Type} (supplied : option V) (before after : V)
  : Prop :=
  match supplied with
  | Some v => after = v
  | None => after = before
  end.

(** An InternalError answer as the handlers mean to give it: a body whose
    only field is the fixed message. *)
Definition opaque_internal_error (r : Response) : Prop :=
  InternalError r → body r = Some (message "Internal server error").

(** ** A small store to run the handlers on *)

Definition alice : User := mkUser "Alice" "alice@example.com" "$2b$05$hashA".
Definition bob : User := mkUser "Bob" "bob@example.com" "$2b$05$hashB".

Definition ai101 : Flight :=
  mkFlight "Air India" "AI101" "DEL" "BOM" 1700000000000 1700007200000 180 5500.

(** Booking 4 refers to User 7, who is no longer stored. *)
Definition sample_db : Db :=
  mkDb {[ 1%N := alice; 5%N := bob ]}
       {[ 2%N := ai101 ]}
       {[ 3%N := mkBooking 1%N 2%N; 4%N := mkBooking 7%N 2%N ]}
       true.

(** A stand-in for bcrypt to run the user routes with: the hash is the
    salt followed by the password, and a password verifies against the
    hashes that end with it. *)
Definition toy_bcrypt : Bcrypt := {|
  hashpw d _ salt := salt +:+ d;
  checkpw d h := if decide (String.length d ≤ String.length h)%nat
                 then String.eqb d
                        (substring (String.length h - String.length d)
                                   (String.length d) h)
                 else false
|}.

(** ** Referential integrity and failure answers *)

(** Every stored Booking refers to a stored User and a stored Flight. *)
Definition references_ok (db : Db) : Prop :=
  ∀ (id : ObjectId) (b : Booking), bookings db !! id = Some b →
    is_Some (users db !! user b) ∧ is_Some (flights db !! flight b).

(** A 4xx or 5xx answer. *)
Definition failure (r : Response) : Prop := 400 ≤ status r.

(** A store without dangling references. *)
Definition linked_db : Db :=
  mkDb {[ 1%N := alice ]} {[ 2%N := ai101 ]} {[ 3%N := mkBooking 1%N 2%N ]}
       true.

(** * Properties *)

(** ** Running the monad *)

Lemma route_ok (m : M Response) (h : Error → Response) (db db' : Db)
    (r : Response) :
  m db = (Ok r, db') → route m h db = (r, db').
Proof. intros E. unfold route. now rewrite E. Qed.

Lemma route_throw (m : M Response) (h : Error → Response) (db db' : Db)
    (e : Error) :
  m db = (Throw e, db') → route m h db = (h e, db').
Proof. intros E. unfold route. now rewrite E. Qed.

Lemma storage_connected {A : Type} (op : Db → A * Db) (db : Db) :
  connected db = true → storage op db = (Ok (fst (op db)), snd (op db)).
Proof. intros C. unfold storage. now rewrite C. Qed.

Lemma storage_disconnected {A : Type} (op : Db → A * Db) (db : Db) :
  connected db = false → storage op db = (Throw StorageError, db).
Proof. intros C. unfold storage. now rewrite C. Qed.

Lemma timespan_1h : timespan "1h" = Some 3600.
Proof. reflexivity. Qed.

(** Unfolds a handler down to the storage calls and runs them on a
    connected store. *)
Ltac run_handler C :=
  repeat (progress
    (unfold route, bind, find, findOne, findById, findByIdAndDelete,
       findByIdAndUpdate, save_new, save, storage, ret, throw; cbn;
     rewrite ?C; cbn)).

(** Closes a goal with a hypothesis that an absent value is present. *)
Ltac absurd_some :=
  repeat match goal with
         | H : _ ∧ _ |- _ => destruct H
         | H : is_Some None |- _ => destruct H; discriminate
         end.

(** ** Bookings *)

(** C1: a booking-create request carrying a user and a flight identifier
    answers NotFound naming the user when the user identifier does not
    resolve, whatever the flight identifier is; NotFound naming the flight
    when the user resolves and the flight does not; and it stores the new
    Booking exactly when both resolve, the store being left as it was on
    either failure. *)
Theorem bookingRouter_post_checks_references
    (oid uid fid : ObjectId) (db : Db) :
  connected db = true →
  bookings db !! oid = None →
  let out := bookingRouter_post oid (mkBookingBody (Some uid) (Some fid)) db in
  (users db !! uid = None →
     NotFound (fst out) ∧
     fst out = respond 404 (message "User  not found") ∧ snd out = db) ∧
  (is_Some (users db !! uid) → flights db !! fid = None →
     NotFound (fst out) ∧
     fst out = respond 404 (message "Flight not found") ∧ snd out = db) ∧
  (is_Some (users db !! uid) → is_Some (flights db !! fid) →
     fst out = respond 201
       (JObject [("message", JString "Flight booked");
                 ("booking", booking_json (oid, mkBooking uid fid))]) ∧
     snd out = set_collection (<[oid := mkBooking uid fid]> (bookings db)) db) ∧
  (bookings (snd out) !! oid = Some (mkBooking uid fid) ↔
     is_Some (users db !! uid) ∧ is_Some (flights db !! fid)).
Proof.
  intros C Fresh out. subst out. unfold bookingRouter_post.
  run_handler C.
  destruct (users db !! uid) as [u|] eqn:Eu;
    destruct (flights db !! fid) as [f|] eqn:Ef; cbn;
    rewrite ?Fresh; run_handler C.
  all: repeat split; intros; absurd_some; try discriminate; eauto.
  apply lookup_insert_eq.
Qed.

Lemma set_collection_same_bookings (db : Db) (id : ObjectId) (b : Booking) :
  bookings db !! id = Some b →
  set_collection (<[id := b]> (bookings db)) db = db.
Proof.
  intros E. destruct db as [us fs bs c]. cbn in *.
  now rewrite (insert_id bs id b E).
Qed.

(** C10: for an existing booking identifier, an update whose body carries
    no field answers 204 with an empty body and leaves the store, and with
    it the Booking under that identifier, as it was. *)
Theorem bookingRouter_patch_empty_body
    (id : ObjectId) (b : Booking) (db : Db) :
  connected db = true →
  bookings db !! id = Some b →
  let out := bookingRouter_patch id (mkBookingBody None None) db in
  fst out = respond_empty 204 ∧
  snd out = db ∧
  bookings (snd out) !! id = Some b.
Proof.
  intros C E out. subst out. unfold bookingRouter_patch.
  run_handler C. rewrite E. run_handler C.
  destruct b as [u f]. cbn.
  pose proof (set_collection_same_bookings db id (mkBooking u f) E) as S.
  cbn in S. rewrite C in S. rewrite S.
  repeat split. apply lookup_insert_eq.
Qed.

(** ** Deletion *)

(** C4: deleting a flight never answers NotFound; on a usable store it
    answers 200 for every identifier, stored or not, and afterwards no
    Flight is stored under the identifier.  Deleting a user or a booking
    under an identifier that resolves to nothing answers NotFound. *)
Theorem flightRouter_delete_idempotent (id : ObjectId) (db : Db) :
  ¬ NotFound (fst (flightRouter_delete id db)) ∧
  (connected db = true →
     fst (flightRouter_delete id db) = respond 200 (message "Flight Deleted") ∧
     flights (snd (flightRouter_delete id db)) !! id = None ∧
     (users db !! id = None →
        NotFound (fst (userRouter_delete id db)) ∧
        fst (userRouter_delete id db) = respond 404 (message "User not found")) ∧
     (bookings db !! id = None →
        NotFound (fst (bookingRouter_delete id db)) ∧
        fst (bookingRouter_delete id db)
          = respond 404 (message "Booking not found"))).
Proof.
  split.
  - unfold flightRouter_delete, NotFound.
    destruct (connected db) eqn:C; run_handler C; discriminate.
  - intros C. unfold flightRouter_delete, userRouter_delete,
      bookingRouter_delete, NotFound.
    run_handler C.
    split; [reflexivity|]. split; [apply lookup_delete_eq|].
    split; intros ->; split; reflexivity.
Qed.

(** ** Partial updates *)

Lemma patched_default {V : Type} (supplied : option V) (before : V) :
  patched supplied before (default before supplied).
Proof. now destruct supplied. Qed.

(** C8: a flight update under an existing identifier answers 200 with the
    updated record; in the stored Flight each field the request carries has
    the supplied value and every other field its prior value, and no other
    record changes.  Under an identifier that resolves to no Flight it
    answers NotFound and the store is unchanged. *)
Theorem flightRouter_patch_partial
    (id : ObjectId) (req : FlightBody) (db : Db) :
  connected db = true →
  let out := flightRouter_patch id req db in
  (∀ f, flights db !! id = Some f →
     ∃ f', flights (snd out) !! id = Some f' ∧
           fst out = respond 200 (flight_json (id, f')) ∧
           patched (b_airline req) (airline f) (airline f') ∧
           patched (b_flightNo req) (flightNo f) (flightNo f') ∧
           patched (b_departure req) (departure f) (departure f') ∧
           patched (b_arrival req) (arrival f) (arrival f') ∧
           patched (b_departureTime req) (departureTime f) (departureTime f') ∧
           patched (b_arrivalTime req) (arrivalTime f) (arrivalTime f') ∧
           patched (b_seats req) (seats f) (seats f') ∧
           patched (b_price req) (price f) (price f') ∧
           (∀ j, j ≠ id → flights (snd out) !! j = flights db !! j) ∧
           users (snd out) = users db ∧
           bookings (snd out) = bookings db) ∧
  (flights db !! id = None →
     NotFound (fst out) ∧
     fst out = respond 404 (message "Flight not found") ∧ snd out = db).
Proof.
  intros C out. subst out. unfold flightRouter_patch, NotFound.
  run_handler C. split.
  - intros f E. rewrite E. cbn. exists (set_flight req f).
    split; [apply lookup_insert_eq|].
    split; [reflexivity|].
    unfold set_flight; cbn.
    repeat (split; [apply patched_default|]).
    split; [|auto].
    intros j Hj. now apply lookup_insert_ne.
  - intros E. rewrite E. cbn. auto.
Qed.

(** C5: a user update under an existing identifier answers 204; in the
    stored User exactly the fields among name, email and password that the
    request carries are overwritten with the supplied values, the others
    keep their values, and no other record changes.  Under an identifier
    that resolves to no User it answers NotFound and no record changes. *)
Theorem userRouter_patch_partial
    (id : ObjectId) (req : UserBody) (db : Db) :
  connected db = true →
  let out := userRouter_patch id req db in
  (∀ u, users db !! id = Some u →
     ∃ u', users (snd out) !! id = Some u' ∧
           fst out = respond_empty 204 ∧
           patched (b_name req) (name u) (name u') ∧
           patched (b_email req) (email u) (email u') ∧
           patched (b_password req) (password u) (password u') ∧
           (∀ j, j ≠ id → users (snd out) !! j = users db !! j) ∧
           flights (snd out) = flights db ∧
           bookings (snd out) = bookings db) ∧
  (users db !! id = None →
     NotFound (fst out) ∧
     fst out = respond 404 (message "User not found") ∧ snd out = db).
Proof.
  intros C out. subst out. unfold userRouter_patch, NotFound.
  run_handler C. split.
  - intros u E. rewrite E. cbn. exists (set_user (b_name req) (b_email req) (b_password req) u).
    split; [apply lookup_insert_eq|].
    split; [reflexivity|].
    unfold set_user; cbn.
    repeat (split; [apply patched_default|]).
    split; [|auto].
    intros j Hj. now apply lookup_insert_ne.
  - intros E. rewrite E. cbn. auto.
Qed.

(** ** Listings *)

Lemma findById_connected {A : Type} `{Model A} (i : ObjectId) (db : Db) :
  connected db = true →
  findById (Some i) db = (Ok (pair i <$> collection db !! i), db).
Proof. intros C. unfold findById. now rewrite storage_connected. Qed.

Lemma populate_connected (booking : Doc Booking) (db : Db) :
  connected db = true →
  populate booking db =
    (Ok (populatedBooking booking
           (pair (user (snd booking)) <$> users db !! user (snd booking))
           (pair (flight (snd booking)) <$> flights db !! flight (snd booking))),
     db).
Proof.
  intros C. unfold populate, bind.
  rewrite (findById_connected (A := User)) by assumption.
  rewrite (findById_connected (A := Flight)) by assumption.
  reflexivity.
Qed.

Lemma promise_all_populate (l : list (Doc Booking)) (db : Db) :
  connected db = true →
  promise_all populate l db =
    (Ok ((λ booking,
            populatedBooking booking
              (pair (user (snd booking)) <$> users db !! user (snd booking))
              (pair (flight (snd booking))
                 <$> flights db !! flight (snd booking))) <$> l),
     db).
Proof.
  intros C. induction l as [|booking rest IH]; [reflexivity|].
  cbn [promise_all]. unfold bind at 1.
  rewrite populate_connected by assumption.
  unfold bind at 1. rewrite IH. reflexivity.
Qed.

(** C3: on every store the dashboard listing answers 200 with as many
    entries as there are stored Bookings, one for each of them; the [user]
    (the [flight]) of an entry is the referenced record when it is stored
    and null when it no longer is, and the listing succeeds either way. *)
Theorem bookingRouter_dashboard_joins (db : Db) :
  connected db = true →
  ∃ entries : list Json,
    bookingRouter_dashboard db = (respond 200 (JArray entries), db) ∧
    length entries = size (bookings db) ∧
    ∀ (id : ObjectId) (b : Booking), bookings db !! id = Some b →
      ∃ e, e ∈ entries ∧
           json_field "_id" e = Some (JObjectId id) ∧
           (users db !! user b = None → json_field "user" e = Some JNull) ∧
           (∀ u, users db !! user b = Some u →
                 json_field "user" e = Some (user_json (user b, u))) ∧
           (flights db !! flight b = None →
              json_field "flight" e = Some JNull) ∧
           (∀ f, flights db !! flight b = Some f →
                 json_field "flight" e = Some (flight_json (flight b, f))).
Proof.
  intros C. eexists. split; [|split].
  - unfold bookingRouter_dashboard. apply route_ok.
    unfold bind at 1. unfold find. rewrite storage_connected by assumption.
    cbn [fst snd]. unfold bind at 1.
    rewrite promise_all_populate by assumption. reflexivity.
  - rewrite length_fmap. cbn. apply length_map_to_list.
  - intros id b E.
    eexists. split.
    + apply list_elem_of_fmap. exists (id, b). split; [reflexivity|].
      now apply elem_of_map_to_list.
    + cbn [fst snd]. repeat split.
      * intros ->. reflexivity.
      * intros u ->. reflexivity.
      * intros ->. reflexivity.
      * intros f ->. reflexivity.
Qed.

(** C9: on every store the user listing answers 200 with as many records
    as there are stored Users, one for each of them, carrying all its
    fields: the identifier, the name, the email and the stored password
    hash. *)
Theorem userRouter_get_lists_password (db : Db) :
  connected db = true →
  ∃ records : list Json,
    userRouter_get db
      = (respond 200 (JObject [("users", JArray records)]), db) ∧
    length records = size (users db) ∧
    ∀ (id : ObjectId) (u : User), users db !! id = Some u →
      ∃ r, r ∈ records ∧
           json_field "_id" r = Some (JObjectId id) ∧
           json_field "name" r = Some (JString (name u)) ∧
           json_field "email" r = Some (JString (email u)) ∧
           json_field "password" r = Some (JString (password u)).
Proof.
  intros C. eexists. split; [|split].
  - unfold userRouter_get. apply route_ok.
    unfold bind, find. rewrite storage_connected by assumption.
    reflexivity.
  - rewrite length_fmap. cbn. apply length_map_to_list.
  - intros id u E. exists (user_json (id, u)). split.
    + apply list_elem_of_fmap. exists (id, u). split; [reflexivity|].
      now apply elem_of_map_to_list.
    + repeat split.
Qed.

(** ** Users *)

Lemma email_is_true (e : string) (u : User) :
  email_is (Some e) u = true ↔ email u = e.
Proof. cbn. apply String.eqb_eq. Qed.

Lemma findOne_email_None (e : string) (m : gmap ObjectId User) :
  (∀ id u, m !! id = Some u → email u ≠ e) →
  head (filter (λ d : Doc User, email_is (Some e) (snd d) = true)
          (map_to_list m)) = None.
Proof.
  intros Hno. apply head_None.
  destruct (filter _ (map_to_list m)) as [|[id u] rest] eqn:E; [reflexivity|].
  assert (Hin : (id, u) ∈ filter
            (λ d : Doc User, email_is (Some e) (snd d) = true) (map_to_list m))
    by (rewrite E; left).
  apply list_elem_of_filter in Hin as [Hp Hin].
  apply elem_of_map_to_list in Hin.
  apply email_is_true in Hp. now destruct (Hno id u Hin).
Qed.

Lemma findOne_email_Some (e : string) (m : gmap ObjectId User) :
  (∃ id u, m !! id = Some u ∧ email u = e) →
  ∃ id u, head (filter (λ d : Doc User, email_is (Some e) (snd d) = true)
                  (map_to_list m)) = Some (id, u) ∧
          m !! id = Some u ∧ email u = e.
Proof.
  intros (id0 & u0 & E0 & Em).
  destruct (filter _ (map_to_list m)) as [|[id u] rest] eqn:E.
  - exfalso.
    apply (filter_nil_not_elem_of _ _ (id0, u0)) in E.
    + apply E. now apply elem_of_map_to_list.
    + now apply email_is_true.
  - exists id, u. split; [reflexivity|].
    assert (Hin : (id, u) ∈ filter
              (λ d : Doc User, email_is (Some e) (snd d) = true)
              (map_to_list m))
      by (rewrite E; left).
    apply list_elem_of_filter in Hin as [Hp Hin].
    split; [now apply elem_of_map_to_list | now apply email_is_true].
Qed.

(** The login handler on a usable store, as a function of what the lookup
    by email finds. *)
Lemma userRouter_login_run `{Bcrypt} (now : Z) (e p : string) (db : Db) :
  connected db = true →
  userRouter_login now (mkLoginBody (Some e) (Some p)) db =
    (match head (filter (λ d : Doc User, email_is (Some e) (snd d) = true)
                   (map_to_list (users db))) with
     | None => respond 401 (message "User not present")
     | Some u =>
         if checkpw p (password (snd u))
         then respond 200
                (JObject [("message", JString "User logged in");
                          ("token",
                           JToken (mkJwt (fst u) now (now + 3600) "secret"))])
         else respond 401 (message "password wrong")
     end, db).
Proof.
  intros C. unfold userRouter_login, route, bind at 1, findOne.
  rewrite storage_connected by assumption.
  cbn [fst snd l_email l_password collection UserModel].
  destruct (head _) as [[id u]|]; [|reflexivity].
  unfold bind, bcrypt_compare, jwt_sign. rewrite timespan_1h. cbn.
  now destruct (checkpw p (password u)).
Qed.







(** C6: a registration request with a name, an email and a password
    stores, under the new identifier, a User whose password field holds,
    in place of the password, its bcrypt hash at cost 5 under the drawn
    salt, and answers 201 with the created record, whose password field is
    that stored hash. *)
Theorem userRouter_register_stores_hash `{Bcrypt}
    (oid : ObjectId) (salt n e p : string) (db : Db) :
  connected db = true →
  users db !! oid = None →
  let out := userRouter_register oid salt
               (mkUserBody (Some n) (Some e) (Some p)) db in
  let stored := mkUser n e (hashpw p 5 salt) in
  users (snd out) !! oid = Some stored ∧
  password stored = hashpw p 5 salt ∧
  (∀ j, j ≠ oid → users (snd out) !! j = users db !! j) ∧
  flights (snd out) = flights db ∧
  bookings (snd out) = bookings db ∧
  fst out = respond 201 (JObject [("message", JString "User saved");
                                  ("newUser", user_json (oid, stored))]) ∧
  json_field "password" (user_json (oid, stored))
    = Some (JString (hashpw p 5 salt)).
Proof.
  intros C Fresh out stored. subst out stored.
  unfold userRouter_register, bcrypt_hash, new_user.
  run_handler C. rewrite Fresh. run_handler C.
  repeat split.
  - apply lookup_insert_eq.
  - intros j Hj. now apply lookup_insert_ne.
Qed.

(** ** Internal errors *)

(** C7, on the code: a registration request without a password makes
    [bcrypt.hash] reject, and the [catch] clause of the register handler
    answers 500 with a body whose only field is [error], holding the caught
    error object, and no [message] field. *)
Theorem userRouter_register_error_body `{Bcrypt}
    (oid : ObjectId) (salt n e : string) (db : Db) :
  let out := userRouter_register oid salt
               (mkUserBody (Some n) (Some e) None) db in
  InternalError (fst out) ∧
  body (fst out) = Some (JObject [("error", JError BcryptArgumentsRequired)]) ∧
  (∀ j, body (fst out) = Some j →
        json_keys j = ["error"] ∧ json_field "message" j = None) ∧
  snd out = db.
Proof.
  cbn. unfold InternalError.
  repeat split; intros; simplify_eq; reflexivity.
Qed.

(** Every other handler answers an internal error with the fixed message
    only, on every store and request. *)
Lemma route_internal_server_error (m : M Response) (db : Db) :
  (∀ r db', m db = (Ok r, db') → status r ≠ 500) →
  opaque_internal_error (fst (route m internal_server_error db)).
Proof.
  intros Hok. unfold route, opaque_internal_error, InternalError.
  destruct (m db) as [[r|e] db'] eqn:E; cbn; [|reflexivity].
  intros S. now destruct (Hok r db' eq_refl).
Qed.

Ltac case_storage :=
  unfold bind, find, findOne, findById, findByIdAndDelete,
    findByIdAndUpdate, save_new, save, storage, ret, throw;
  intros r db';
  repeat match goal with
         | |- context [if connected ?d then _ else _] =>
             destruct (connected d) eqn:?; cbn
         | |- context [match ?x with _ => _ end] => destruct x eqn:?; cbn
         end;
  intros ?; simplify_eq; cbn; discriminate.

Lemma sibling_handlers_opaque_internal_error `{Bcrypt} (db : Db) :
  opaque_internal_error (fst (userRouter_get db)) ∧
  (∀ now req, opaque_internal_error (fst (userRouter_login now req db))) ∧
  (∀ id, opaque_internal_error (fst (userRouter_delete id db))) ∧
  (∀ id req, opaque_internal_error (fst (userRouter_patch id req db))) ∧
  opaque_internal_error (fst (flightRouter_get db)) ∧
  (∀ oid req, opaque_internal_error (fst (flightRouter_post oid req db))) ∧
  (∀ id, opaque_internal_error (fst (flightRouter_get_id id db))) ∧
  (∀ id req, opaque_internal_error (fst (flightRouter_patch id req db))) ∧
  (∀ id, opaque_internal_error (fst (flightRouter_delete id db))) ∧
  opaque_internal_error (fst (bookingRouter_dashboard db)) ∧
  (∀ oid req, opaque_internal_error (fst (bookingRouter_post oid req db))) ∧
  (∀ id req, opaque_internal_error (fst (bookingRouter_patch id req db))) ∧
  (∀ id, opaque_internal_error (fst (bookingRouter_delete id db))).
Proof.
  repeat split; intros; apply route_internal_server_error.
  - case_storage.
  - unfold bcrypt_compare, jwt_sign. rewrite timespan_1h. case_storage.
  - case_storage.
  - case_storage.
  - case_storage.
  - unfold new_flight. case_storage.
  - case_storage.
  - case_storage.
  - case_storage.
  - generalize (promise_all populate). intros pa. case_storage.
  - unfold new_booking. case_storage.
  - case_storage.
  - case_storage.
Qed.

(** * The theorems at work on the sample store *)

Lemma bookingRouter_post_checks_references_witness :
  fst (bookingRouter_post 9%N (mkBookingBody (Some 1%N) (Some 2%N)) sample_db)
    = respond 201
        (JObject [("message", JString "Flight booked");
                  ("booking", booking_json (9%N, mkBooking 1%N 2%N))]) ∧
  NotFound
    (fst (bookingRouter_post 9%N (mkBookingBody (Some 7%N) (Some 2%N))
            sample_db)).
Proof.
  split.
  - destruct (bookingRouter_post_checks_references 9%N 1%N 2%N sample_db
                eq_refl eq_refl) as (_ & _ & Hboth & _).
    apply Hboth; eexists; reflexivity.
  - destruct (bookingRouter_post_checks_references 9%N 7%N 2%N sample_db
                eq_refl eq_refl) as (Huser & _).
    apply Huser. reflexivity.
Defined.

Lemma bookingRouter_patch_empty_body_witness :
  fst (bookingRouter_patch 3%N (mkBookingBody None None) sample_db)
    = respond_empty 204 ∧
  snd (bookingRouter_patch 3%N (mkBookingBody None None) sample_db)
    = sample_db.
Proof.
  destruct (bookingRouter_patch_empty_body 3%N (mkBooking 1%N 2%N) sample_db
              eq_refl eq_refl) as (Hr & Hs & _).
  split; assumption.
Defined.

Lemma flightRouter_delete_idempotent_witness :
  fst (flightRouter_delete 8%N sample_db)
    = respond 200 (message "Flight Deleted") ∧
  NotFound (fst (userRouter_delete 8%N sample_db)) ∧
  NotFound (fst (bookingRouter_delete 8%N sample_db)).
Proof.
  destruct (flightRouter_delete_idempotent 8%N sample_db) as (_ & H).
  destruct (H eq_refl) as (Hf & _ & Hu & Hb).
  split; [exact Hf|]. split.
  - apply Hu. reflexivity.
  - apply Hb. reflexivity.
Defined.

Lemma flightRouter_patch_partial_witness :
  ∃ f', flights (snd (flightRouter_patch 2%N
                        (mkFlightBody None None None None None None
                                      (Some 179) None) sample_db)) !! 2%N
          = Some f' ∧
        seats f' = 179 ∧ price f' = 5500 ∧ airline f' = "Air India".
Proof.
  destruct (flightRouter_patch_partial 2%N
              (mkFlightBody None None None None None None (Some 179) None)
              sample_db eq_refl) as (H & _).
  destruct (H ai101 eq_refl)
    as (f' & E & _ & Ha & _ & _ & _ & _ & _ & Hs & Hp & _).
  exists f'. cbn in Ha, Hs, Hp. auto.
Defined.

Lemma userRouter_patch_partial_witness :
  ∃ u', users (snd (userRouter_patch 1%N
                      (mkUserBody (Some "Alicia") None None) sample_db)) !! 1%N
          = Some u' ∧
        name u' = "Alicia" ∧ email u' = email alice ∧
        password u' = password alice.
Proof.
  destruct (userRouter_patch_partial 1%N
              (mkUserBody (Some "Alicia") None None) sample_db eq_refl)
    as (H & _).
  destruct (H alice eq_refl) as (u' & E & _ & Hn & He & Hp & _).
  exists u'. cbn in Hn, He, Hp. auto.
Defined.

Lemma bookingRouter_dashboard_joins_witness :
  ∃ entries : list Json,
    bookingRouter_dashboard sample_db = (respond 200 (JArray entries), sample_db) ∧
    length entries = 2%nat ∧
    ∃ e, e ∈ entries ∧ json_field "_id" e = Some (JObjectId 4%N) ∧
         json_field "user" e = Some JNull.
Proof.
  destruct (bookingRouter_dashboard_joins sample_db eq_refl)
    as (entries & Hr & Hl & He).
  exists entries. split; [exact Hr|]. split; [exact Hl|].
  destruct (He 4%N (mkBooking 7%N 2%N) eq_refl) as (e & Hin & Hid & Hnull & _).
  exists e. split; [exact Hin|]. split; [exact Hid|].
  apply Hnull. reflexivity.
Defined.

Lemma userRouter_get_lists_password_witness :
  ∃ records : list Json,
    fst (userRouter_get sample_db)
      = respond 200 (JObject [("users", JArray records)]) ∧
    ∃ r, r ∈ records ∧
         json_field "password" r = Some (JString "$2b$05$hashA").
Proof.
  destruct (userRouter_get_lists_password sample_db eq_refl)
    as (records & Hr & _ & Hall).
  exists records. split; [now rewrite Hr|].
  destruct (Hall 1%N alice eq_refl) as (r & Hin & _ & _ & _ & Hp).
  exists r. auto.
Defined.


Lemma userRouter_register_stores_hash_witness :
  users (snd (userRouter_register (H := toy_bcrypt) 6%N "$2b$05$salt"
                (mkUserBody (Some "Carol") (Some "carol@example.com")
                            (Some "pw")) sample_db)) !! 6%N
    = Some (mkUser "Carol" "carol@example.com" "$2b$05$saltpw").
Proof.
  destruct (userRouter_register_stores_hash (H := toy_bcrypt) 6%N
              "$2b$05$salt" "Carol" "carol@example.com" "pw" sample_db
              eq_refl eq_refl) as (Hs & _).
  exact Hs.
Defined.

(** Registering and then logging in with the same credentials, with the
    stand-in for bcrypt. *)
Example register_then_login :
  let db := snd (userRouter_register (H := toy_bcrypt) 6%N "$2b$05$salt"
                   (mkUserBody (Some "Carol") (Some "carol@example.com")
                               (Some "pw")) sample_db) in
  fst (userRouter_login (H := toy_bcrypt) 1000
         (mkLoginBody (Some "carol@example.com") (Some "pw")) db)
    = respond 200 (JObject [("message", JString "User logged in");
                            ("token", JToken (mkJwt 6%N 1000 4600 "secret"))]) ∧
  fst (userRouter_login (H := toy_bcrypt) 1000
         (mkLoginBody (Some "carol@example.com") (Some "wrong")) db)
    = respond 401 (message "password wrong").
Proof. split; vm_compute; reflexivity. Qed.

(** The register handler on a request without a password, next to the
    login handler on one. *)
Example register_and_login_without_password :
  fst (userRouter_register (H := toy_bcrypt) 6%N "$2b$05$salt"
         (mkUserBody (Some "Carol") (Some "carol@example.com") None) sample_db)
    = respond 500 (JObject [("error", JError BcryptArgumentsRequired)]) ∧
  fst (userRouter_login (H := toy_bcrypt) 1000
         (mkLoginBody (Some "alice@example.com") None) sample_db)
    = respond 500 (message "Internal server error").
Proof. split; vm_compute; reflexivity. Qed.

(** * Further properties of the handlers *)

(** ** What the handlers leave alone *)

Lemma promise_all_populate_store (l : list (Doc Booking)) (db : Db) :
  snd (promise_all populate l db) = db.
Proof.
  destruct (connected db) eqn:C.
  - now rewrite promise_all_populate.
  - destruct l as [|booking rest]; [reflexivity|].
    cbn [promise_all]. unfold bind at 1, populate, bind at 1, findById.
    now rewrite storage_disconnected.
Qed.

(** X1: the listings, the lookup of a flight by identifier and the login
    never write: whatever the request, the store and the state of the
    connection, the store after the call is the store before it. *)
Theorem read_handlers_leave_store `{Bcrypt}
    (db : Db) (now : Z) (req : LoginBody) (id : ObjectId) :
  snd (userRouter_get db) = db ∧
  snd (userRouter_login now req db) = db ∧
  snd (flightRouter_get db) = db ∧
  snd (flightRouter_get_id id db) = db ∧
  snd (bookingRouter_dashboard db) = db.
Proof.
  repeat split.
  - unfold userRouter_get. destruct (connected db) eqn:C; now run_handler C.
  - unfold userRouter_login, bcrypt_compare, jwt_sign. rewrite timespan_1h.
    destruct (connected db) eqn:C; run_handler C; [|reflexivity].
    destruct (head _) as [[i u]|]; [|reflexivity].
    destruct (l_password req); cbn; [|reflexivity].
    now destruct (checkpw _ _).
  - unfold flightRouter_get. destruct (connected db) eqn:C; now run_handler C.
  - unfold flightRouter_get_id.
    destruct (connected db) eqn:C; run_handler C; [|reflexivity].
    now destruct (flights db !! id).
  - unfold bookingRouter_dashboard, route, bind at 1, find.
    destruct (connected db) eqn:C.
    + rewrite storage_connected by assumption. cbn [fst snd].
      unfold bind at 1.
      pose proof (promise_all_populate_store
                    (map_to_list (collection db)) db) as S.
      destruct (promise_all populate _ db) as [[ys|e] db']; cbn in *; auto.
    + now rewrite storage_disconnected.
Qed.

(** Runs a handler on a store whose connection may or may not be usable,
    through every branch of its body. *)
Ltac every_branch :=
  unfold failure, InternalError, bcrypt_hash, bcrypt_compare, jwt_sign,
    new_user, new_flight, new_booking;
  rewrite ?timespan_1h;
  repeat (progress
    (unfold route, bind, find, findOne, findById, findByIdAndDelete,
       findByIdAndUpdate, save_new, save, storage, ret, throw; cbn));
  repeat match goal with
         | |- context [match ?x with _ => _ end] =>
             lazymatch x with
             | context [match _ with _ => _ end] => fail
             | _ => destruct x eqn:?; cbn
             end
         end.

(** Closes a branch: the answer is no failure, or the store is the one
    before, possibly after the deletion of an identifier that was absent. *)
Ltac close_branch :=
  intros;
  first
    [ reflexivity
    | lia
    | congruence
    | repeat match goal with
             | Hn : _ <$> _ = None |- _ => apply fmap_None in Hn
             end;
      match goal with
      | |- _ = ?d => destruct d; cbn in *; subst;
                     rewrite delete_id by assumption; reflexivity
      end ].

(** X2: no handler fails after having written: when a writing handler
    answers with a 4xx or 5xx status, whatever the request and the state of
    the connection, the store is the one before the call. *)
Theorem failed_writes_leave_store `{Bcrypt} (db : Db) :
  (∀ oid salt req, failure (fst (userRouter_register oid salt req db)) →
                   snd (userRouter_register oid salt req db) = db) ∧
  (∀ id, failure (fst (userRouter_delete id db)) →
         snd (userRouter_delete id db) = db) ∧
  (∀ id req, failure (fst (userRouter_patch id req db)) →
             snd (userRouter_patch id req db) = db) ∧
  (∀ oid req, failure (fst (flightRouter_post oid req db)) →
              snd (flightRouter_post oid req db) = db) ∧
  (∀ id req, failure (fst (flightRouter_patch id req db)) →
             snd (flightRouter_patch id req db) = db) ∧
  (∀ id, failure (fst (flightRouter_delete id db)) →
         snd (flightRouter_delete id db) = db) ∧
  (∀ oid req, failure (fst (bookingRouter_post oid req db)) →
              snd (bookingRouter_post oid req db) = db) ∧
  (∀ id req, failure (fst (bookingRouter_patch id req db)) →
             snd (bookingRouter_patch id req db) = db) ∧
  (∀ id, failure (fst (bookingRouter_delete id db)) →
         snd (bookingRouter_delete id db) = db).
Proof.
  repeat apply conj; intros *.
  - unfold userRouter_register. every_branch; close_branch.
  - unfold userRouter_delete. every_branch; close_branch.
  - unfold userRouter_patch. every_branch; close_branch.
  - unfold flightRouter_post. every_branch; close_branch.
  - unfold flightRouter_patch. every_branch; close_branch.
  - unfold flightRouter_delete. every_branch; close_branch.
  - unfold bookingRouter_post. every_branch; close_branch.
  - unfold bookingRouter_patch. every_branch; close_branch.
  - unfold bookingRouter_delete. every_branch; close_branch.
Qed.

Lemma failed_writes_leave_store_witness :
  snd (userRouter_delete 8%N sample_db) = sample_db ∧
  snd (bookingRouter_post 9%N (mkBookingBody (Some 7%N) (Some 2%N)) sample_db)
    = sample_db.
Proof.
  destruct (failed_writes_leave_store (H := toy_bcrypt) sample_db)
    as (_ & Hdel & _ & _ & _ & _ & Hpost & _).
  split.
  - apply Hdel. unfold failure. vm_compute. discriminate.
  - apply Hpost. unfold failure. vm_compute. discriminate.
Defined.

(** X3: a booking-create request changes nothing but the Booking under the
    new identifier: whatever the request and the store, the Users and the
    Flights, the seats of the booked flight among them, and every other
    Booking are as before. *)
Theorem bookingRouter_post_frame
    (oid : ObjectId) (req : BookingBody) (db : Db) :
  users (snd (bookingRouter_post oid req db)) = users db ∧
  flights (snd (bookingRouter_post oid req db)) = flights db ∧
  (∀ j, j ≠ oid →
        bookings (snd (bookingRouter_post oid req db)) !! j
          = bookings db !! j).
Proof.
  unfold bookingRouter_post.
  repeat apply conj; intros *; every_branch; intros;
    try reflexivity; cbn; now rewrite ?lookup_insert_ne by congruence.
Qed.

(** ** Requests that lack a field *)

(** X4: a booking-create request without a [user] field answers NotFound
    naming the user, whatever its [flight] field; one with a user that
    resolves and no [flight] field answers NotFound naming the flight; the
    store is unchanged in both cases. *)
Theorem bookingRouter_post_missing_field
    (oid : ObjectId) (db : Db) :
  connected db = true →
  (∀ f, bookingRouter_post oid (mkBookingBody None f) db
          = (respond 404 (message "User  not found"), db)) ∧
  (∀ uid, is_Some (users db !! uid) →
          bookingRouter_post oid (mkBookingBody (Some uid) None) db
            = (respond 404 (message "Flight not found"), db)).
Proof.
  intros C. split.
  - intros f. unfold bookingRouter_post. run_handler C.
    destruct f as [fid|]; cbn; rewrite ?C; reflexivity.
  - intros uid [u Eu]. unfold bookingRouter_post. run_handler C.
    rewrite Eu. reflexivity.
Qed.

Lemma bookingRouter_post_missing_field_witness :
  bookingRouter_post 9%N (mkBookingBody None (Some 2%N)) sample_db
    = (respond 404 (message "User  not found"), sample_db) ∧
  bookingRouter_post 9%N (mkBookingBody (Some 1%N) None) sample_db
    = (respond 404 (message "Flight not found"), sample_db).
Proof.
  destruct (bookingRouter_post_missing_field 9%N sample_db eq_refl)
    as (Hu & Hf).
  split; [apply Hu | apply Hf; eexists; reflexivity].
Defined.

(** The login handler on a usable store and a request without a password,
    as a function of what the lookup by email finds. *)
Lemma userRouter_login_no_password_run `{Bcrypt}
    (now : Z) (e : string) (db : Db) :
  connected db = true →
  userRouter_login now (mkLoginBody (Some e) None) db =
    (match head (filter (λ d : Doc User, email_is (Some e) (snd d) = true)
                   (map_to_list (users db))) with
     | None => respond 401 (message "User not present")
     | Some _ => respond 500 (message "Internal server error")
     end, db).
Proof.
  intros C. unfold userRouter_login, route, bind at 1, findOne.
  rewrite storage_connected by assumption.
  cbn [fst snd l_email l_password collection UserModel].
  now destruct (head _) as [[id u]|].
Qed.

(** X5: a login request without a password answers Unauthorized "User not
    present" when no stored User has the email, and InternalError when one
    has: the lookup by email comes first, and [bcrypt.compare] rejects a
    missing password. *)
Theorem userRouter_login_without_password `{Bcrypt}
    (now : Z) (e : string) (db : Db) :
  connected db = true →
  let out := userRouter_login now (mkLoginBody (Some e) None) db in
  ((∀ id u, users db !! id = Some u → email u ≠ e) →
     out = (respond 401 (message "User not present"), db)) ∧
  ((∃ id u, users db !! id = Some u ∧ email u = e) →
     out = (respond 500 (message "Internal server error"), db)).
Proof.
  intros C out. subst out.
  rewrite userRouter_login_no_password_run by assumption. split.
  - intros Hno. now rewrite (findOne_email_None e (users db) Hno).
  - intros Hex. destruct (findOne_email_Some e (users db) Hex)
      as (id & u & -> & _). reflexivity.
Qed.

Lemma userRouter_login_without_password_witness :
  userRouter_login (H := toy_bcrypt) 1000
    (mkLoginBody (Some "alice@example.com") None) sample_db
    = (respond 500 (message "Internal server error"), sample_db).
Proof.
  destruct (userRouter_login_without_password (H := toy_bcrypt) 1000
              "alice@example.com" sample_db eq_refl) as (_ & Hex).
  apply Hex. exists 1%N, alice. split; reflexivity.
Defined.

(** ** Tokens *)

(** The answer of the login handler on any request and store. *)
Lemma userRouter_login_response `{Bcrypt}
    (now : Z) (req : LoginBody) (db : Db) :
  fst (userRouter_login now req db) =
    if connected db then
      match head (filter (λ d : Doc User, email_is (l_email req) (snd d) = true)
                    (map_to_list (users db))) with
      | None => respond 401 (message "User not present")
      | Some u =>
          match l_password req with
          | None => respond 500 (message "Internal server error")
          | Some p =>
              if checkpw p (password (snd u))
              then respond 200
                     (JObject [("message", JString "User logged in");
                               ("token",
                                JToken
                                  (mkJwt (fst u) now (now + 3600) "secret"))])
              else respond 401 (message "password wrong")
          end
      end
    else respond 500 (message "Internal server error").
Proof.
  unfold userRouter_login, route, bind at 1, findOne, storage.
  destruct (connected db) eqn:C; [|reflexivity].
  cbn [fst snd collection UserModel].
  destruct (head _) as [[id u]|]; [|reflexivity].
  unfold bind, bcrypt_compare, jwt_sign. rewrite timespan_1h.
  destruct (l_password req) as [p|]; cbn; [|reflexivity].
  now destruct (checkpw p (password u)).
Qed.

(** X6: the login handler hands out a token only for valid credentials:
    whatever the request and the store, a 200 answer means that the request
    carries an email and a password, that a stored User has that email and
    that the password verifies against that User's stored hash, and the
    token in the answer names that User; every other answer carries no
    token. *)
Theorem userRouter_login_token_sound `{Bcrypt}
    (now : Z) (req : LoginBody) (db : Db) :
  let r := fst (userRouter_login now req db) in
  (status r = 200 →
     ∃ e p id u,
       l_email req = Some e ∧ l_password req = Some p ∧
       users db !! id = Some u ∧ email u = e ∧
       checkpw p (password u) = true ∧
       body r = Some (JObject [("message", JString "User logged in");
                               ("token",
                                JToken (mkJwt id now (now + 3600) "secret"))])) ∧
  (status r ≠ 200 →
     ∀ j, body r = Some j → json_field "token" j = None).
Proof.
  intros r. subst r. rewrite userRouter_login_response.
  destruct (connected db) eqn:C;
    [|split; [discriminate | intros _ j [= <-]; reflexivity]].
  destruct (head _) as [[id u]|] eqn:Eh;
    [|split; [discriminate | intros _ j [= <-]; reflexivity]].
  apply head_Some_elem_of, list_elem_of_filter in Eh as [Hp Hin].
  apply elem_of_map_to_list in Hin. cbn in Hp, Hin.
  destruct (l_password req) as [p|] eqn:Ep; cbn;
    [|split; [discriminate | intros _ j [= <-]; reflexivity]].
  destruct (checkpw p (password u)) eqn:Ec; cbn;
    [|split; [discriminate | intros _ j [= <-]; reflexivity]].
  split; [|congruence].
  intros _. destruct (l_email req) as [e|] eqn:Ee; [|discriminate].
  exists e, p, id, u. repeat split; try assumption.
  now apply email_is_true.
Qed.

Lemma userRouter_login_token_sound_witness :
  (∃ id u, users sample_db !! id = Some u ∧
           email u = "alice@example.com" ∧
           checkpw (Bcrypt := toy_bcrypt) "hashA" (password u) = true) ∧
  (∀ j, body (fst (userRouter_login (H := toy_bcrypt) 1000
                     (mkLoginBody (Some "alice@example.com") (Some "guess"))
                     sample_db)) = Some j →
        json_field "token" j = None).
Proof.
  split.
  - destruct (userRouter_login_token_sound (H := toy_bcrypt) 1000
                (mkLoginBody (Some "alice@example.com") (Some "hashA"))
                sample_db) as (Hok & _).
    destruct (Hok eq_refl) as (e & p & id & u & [= <-] & [= <-] & Hu & He & Hc & _).
    exists id, u. auto.
  - destruct (userRouter_login_token_sound (H := toy_bcrypt) 1000
                (mkLoginBody (Some "alice@example.com") (Some "guess"))
                sample_db) as (_ & Hno).
    apply Hno. vm_compute. discriminate.
Defined.

(** ** Referential integrity *)

Lemma references_ok_mono (db db' : Db) :
  (∀ id b, bookings db' !! id = Some b → bookings db !! id = Some b) →
  (∀ i, is_Some (users db !! i) → is_Some (users db' !! i)) →
  (∀ i, is_Some (flights db !! i) → is_Some (flights db' !! i)) →
  references_ok db → references_ok db'.
Proof.
  intros Hb Hu Hf Hok id b E.
  destruct (Hok id b (Hb id b E)). split; auto.
Qed.

(** Where a booking-create request leaves the store: as it was, or with the
    Booking of a stored User on a stored Flight under the new identifier. *)
Lemma bookingRouter_post_store (oid : ObjectId) (req : BookingBody) (db : Db) :
  snd (bookingRouter_post oid req db) = db ∨
  ∃ uid fid,
    is_Some (users db !! uid) ∧ is_Some (flights db !! fid) ∧
    snd (bookingRouter_post oid req db)
      = set_collection (<[oid := mkBooking uid fid]> (bookings db)) db.
Proof.
  unfold bookingRouter_post. every_branch; try (left; reflexivity).
  right.
  repeat match goal with
         | E : pair _ <$> _ = Some _ |- _ =>
             apply fmap_Some in E as (? & ? & _)
         end.
  simplify_eq. eexists _, _. split; [eauto|]. split; [eauto|].
  cbn. congruence.
Qed.

(** X7: creating a booking keeps the references sound: on a store where
    every Booking refers to a stored User and a stored Flight, the store
    after a booking-create request, whatever the request, is such a store
    again. *)
Theorem bookingRouter_post_keeps_references
    (oid : ObjectId) (req : BookingBody) (db : Db) :
  references_ok db → references_ok (snd (bookingRouter_post oid req db)).
Proof.
  intros Hok.
  destruct (bookingRouter_post_store oid req db)
    as [-> | (uid & fid & Hu & Hf & ->)]; [assumption|].
  intros id b E. cbn in E |- *.
  apply lookup_insert_Some in E as [[<- <-] | [_ E]]; [auto|].
  exact (Hok id b E).
Qed.

Lemma linked_db_references_ok : references_ok linked_db.
Proof.
  intros id b E. cbn in E.
  apply lookup_singleton_Some in E as [<- <-].
  split; eexists; reflexivity.
Qed.

Lemma bookingRouter_post_keeps_references_witness :
  references_ok
    (snd (bookingRouter_post 9%N (mkBookingBody (Some 1%N) (Some 2%N))
            linked_db)).
Proof.
  apply bookingRouter_post_keeps_references.
  intros id b E. cbn in E.
  apply lookup_singleton_Some in E as [<- <-].
  split; eexists; reflexivity.
Defined.

(** Closes the preservation of sound references for a store that has
    grown in Users or Flights, or shrunk in Bookings. *)
Ltac grown_store :=
  first
    [ assumption
    | eapply references_ok_mono; [| | |eassumption]; cbn; intros *;
      rewrite ?lookup_insert_is_Some', ?lookup_delete_Some; tauto ].

(** X8: registering a user, adding a flight, updating a user or a flight
    and deleting a booking keep the references sound as well, whatever the
    request. *)
Theorem other_writes_keep_references `{Bcrypt} (db : Db) :
  references_ok db →
  (∀ oid salt req,
     references_ok (snd (userRouter_register oid salt req db))) ∧
  (∀ oid req, references_ok (snd (flightRouter_post oid req db))) ∧
  (∀ id req, references_ok (snd (userRouter_patch id req db))) ∧
  (∀ id req, references_ok (snd (flightRouter_patch id req db))) ∧
  (∀ id, references_ok (snd (bookingRouter_delete id db))).
Proof.
  intros Hok. repeat apply conj; intros *.
  - unfold userRouter_register. every_branch; grown_store.
  - unfold flightRouter_post. every_branch; grown_store.
  - unfold userRouter_patch. every_branch; grown_store.
  - unfold flightRouter_patch. every_branch; grown_store.
  - unfold bookingRouter_delete. every_branch; grown_store.
Qed.

Lemma other_writes_keep_references_witness :
  references_ok (snd (bookingRouter_delete 3%N linked_db)) ∧
  references_ok
    (snd (userRouter_patch 1%N (mkUserBody (Some "Alicia") None None)
            linked_db)).
Proof.
  destruct (other_writes_keep_references (H := toy_bcrypt) linked_db)
    as (_ & _ & Hpatch & _ & Hdel).
  - intros id b E. cbn in E.
    apply lookup_singleton_Some in E as [<- <-].
    split; eexists; reflexivity.
  - split; [apply Hdel | apply Hpatch].
Defined.

(** ** Deleting what bookings refer to *)

Lemma bookingRouter_dashboard_run (db : Db) :
  connected db = true →
  bookingRouter_dashboard db =
    (respond 200
       (JArray ((λ booking,
                   populatedBooking booking
                     (pair (user (snd booking))
                        <$> users db !! user (snd booking))
                     (pair (flight (snd booking))
                        <$> flights db !! flight (snd booking)))
                  <$> map_to_list (bookings db))),
     db).
Proof.
  intros C. unfold bookingRouter_dashboard. apply route_ok.
  unfold bind at 1. unfold find. rewrite storage_connected by assumption.
  cbn [fst snd]. unfold bind at 1.
  rewrite promise_all_populate by assumption. reflexivity.
Qed.

Lemma userRouter_delete_store (id : ObjectId) (db : Db) :
  connected db = true →
  snd (userRouter_delete id db) = set_collection (delete id (users db)) db.
Proof.
  intros C. unfold userRouter_delete. run_handler C.
  now destruct (users db !! id).
Qed.

Lemma flightRouter_delete_store (id : ObjectId) (db : Db) :
  connected db = true →
  snd (flightRouter_delete id db) = set_collection (delete id (flights db)) db.
Proof. intros C. unfold flightRouter_delete. now run_handler C. Qed.

(** X9: deletions do not cascade.  After the User (the Flight) that a
    stored Booking refers to is deleted, the Booking is still stored, and
    the dashboard listing still answers 200, with an entry for that Booking
    whose [user] (whose [flight]) is null. *)
Theorem deletes_do_not_cascade (bid : ObjectId) (b : Booking) (db : Db) :
  connected db = true →
  bookings db !! bid = Some b →
  (bookings (snd (userRouter_delete (user b) db)) !! bid = Some b ∧
   ∃ entries e,
     fst (bookingRouter_dashboard (snd (userRouter_delete (user b) db)))
       = respond 200 (JArray entries) ∧
     e ∈ entries ∧
     json_field "_id" e = Some (JObjectId bid) ∧
     json_field "user" e = Some JNull) ∧
  (bookings (snd (flightRouter_delete (flight b) db)) !! bid = Some b ∧
   ∃ entries e,
     fst (bookingRouter_dashboard (snd (flightRouter_delete (flight b) db)))
       = respond 200 (JArray entries) ∧
     e ∈ entries ∧
     json_field "_id" e = Some (JObjectId bid) ∧
     json_field "flight" e = Some JNull).
Proof.
  intros C E. split.
  - rewrite userRouter_delete_store by assumption.
    split; [exact E|].
    rewrite bookingRouter_dashboard_run by exact C.
    eexists _, _. split; [reflexivity|]. split.
    + apply list_elem_of_fmap. exists (bid, b). split; [reflexivity|].
      now apply elem_of_map_to_list.
    + cbn. rewrite lookup_delete_eq. split; reflexivity.
  - rewrite flightRouter_delete_store by assumption.
    split; [exact E|].
    rewrite bookingRouter_dashboard_run by exact C.
    eexists _, _. split; [reflexivity|]. split.
    + apply list_elem_of_fmap. exists (bid, b). split; [reflexivity|].
      now apply elem_of_map_to_list.
    + cbn. rewrite lookup_delete_eq. split; reflexivity.
Qed.

Lemma deletes_do_not_cascade_witness :
  bookings (snd (userRouter_delete 1%N sample_db)) !! 3%N
    = Some (mkBooking 1%N 2%N) ∧
  bookings (snd (flightRouter_delete 2%N sample_db)) !! 3%N
    = Some (mkBooking 1%N 2%N).
Proof.
  destruct (deletes_do_not_cascade 3%N (mkBooking 1%N 2%N) sample_db
              eq_refl eq_refl) as ((Hu & _) & (Hf & _)).
  split; assumption.
Defined.

(** X10: deleting a referenced User breaks the soundness of references:
    on a usable store with a Booking that refers to the User, the store
    after the deletion has a dangling reference. *)
Theorem userRouter_delete_breaks_references
    (bid : ObjectId) (b : Booking) (db : Db) :
  connected db = true →
  bookings db !! bid = Some b →
  ¬ references_ok (snd (userRouter_delete (user b) db)).
Proof.
  intros C E Hok. rewrite userRouter_delete_store in Hok by assumption.
  destruct (Hok bid b E) as [[u Hu] _]. cbn in Hu.
  rewrite lookup_delete_eq in Hu. discriminate.
Qed.

Lemma userRouter_delete_breaks_references_witness :
  ¬ references_ok (snd (userRouter_delete 1%N linked_db)).
Proof.
  exact (userRouter_delete_breaks_references 3%N (mkBooking 1%N 2%N)
           linked_db eq_refl eq_refl).
Defined.

(** ** Deleting and updating single records *)

(** X11: deleting a stored user answers 204 with an empty body, and
    deleting a stored booking answers 202 "Booking deleted"; afterwards the
    identifier resolves to nothing, every other record of the collection is
    as before and the other two collections are untouched. *)
Theorem delete_removes_one_record (id : ObjectId) (db : Db) :
  connected db = true →
  (is_Some (users db !! id) →
     fst (userRouter_delete id db) = respond_empty 204 ∧
     users (snd (userRouter_delete id db)) !! id = None ∧
     (∀ j, j ≠ id →
           users (snd (userRouter_delete id db)) !! j = users db !! j) ∧
     flights (snd (userRouter_delete id db)) = flights db ∧
     bookings (snd (userRouter_delete id db)) = bookings db) ∧
  (is_Some (bookings db !! id) →
     fst (bookingRouter_delete id db)
       = respond 202 (message "Booking deleted") ∧
     bookings (snd (bookingRouter_delete id db)) !! id = None ∧
     (∀ j, j ≠ id →
           bookings (snd (bookingRouter_delete id db)) !! j
             = bookings db !! j) ∧
     users (snd (bookingRouter_delete id db)) = users db ∧
     flights (snd (bookingRouter_delete id db)) = flights db).
Proof.
  intros C. split; intros [x Ex].
  - unfold userRouter_delete. run_handler C. rewrite Ex. cbn.
    split; [reflexivity|]. split; [apply lookup_delete_eq|].
    split; [|auto]. intros j Hj. now apply lookup_delete_ne.
  - unfold bookingRouter_delete. run_handler C. rewrite Ex. cbn.
    split; [reflexivity|]. split; [apply lookup_delete_eq|].
    split; [|auto]. intros j Hj. now apply lookup_delete_ne.
Qed.

Lemma delete_removes_one_record_witness :
  fst (userRouter_delete 1%N sample_db) = respond_empty 204 ∧
  fst (bookingRouter_delete 1%N
         (mkDb ∅ ∅ {[ 1%N := mkBooking 1%N 2%N ]} true))
    = respond 202 (message "Booking deleted").
Proof.
  split.
  - destruct (delete_removes_one_record 1%N sample_db eq_refl) as (Hu & _).
    apply Hu. eexists; reflexivity.
  - destruct (delete_removes_one_record 1%N
                (mkDb ∅ ∅ {[ 1%N := mkBooking 1%N 2%N ]} true) eq_refl)
      as (_ & Hb).
    apply Hb. eexists; reflexivity.
Defined.

(** X12: a booking update writes the references the request carries
    without looking them up: for a stored Booking it answers 204, the
    stored Booking has the supplied [user] and [flight] where the request
    carries them and the prior ones otherwise, whether or not they resolve,
    and nothing else changes; for an identifier that resolves to no Booking
    it answers NotFound and the store is unchanged. *)
Theorem bookingRouter_patch_overwrites
    (id : ObjectId) (req : BookingBody) (db : Db) :
  connected db = true →
  let out := bookingRouter_patch id req db in
  (∀ b, bookings db !! id = Some b →
     ∃ b', bookings (snd out) !! id = Some b' ∧
           fst out = respond_empty 204 ∧
           patched (b_user req) (user b) (user b') ∧
           patched (b_flight req) (flight b) (flight b') ∧
           (∀ j, j ≠ id → bookings (snd out) !! j = bookings db !! j) ∧
           users (snd out) = users db ∧
           flights (snd out) = flights db) ∧
  (bookings db !! id = None →
     out = (respond 404 (message "Booking not found"), db)).
Proof.
  intros C out. subst out. unfold bookingRouter_patch.
  run_handler C. split.
  - intros b E. rewrite E. run_handler C.
    eexists. split; [apply lookup_insert_eq|].
    split; [reflexivity|]. cbn.
    repeat (split; [apply patched_default|]).
    split; [|auto]. intros j Hj. now apply lookup_insert_ne.
  - intros E. now rewrite E.
Qed.

Lemma bookingRouter_patch_overwrites_witness :
  ∃ b', bookings (snd (bookingRouter_patch 3%N
                         (mkBookingBody (Some 42%N) None) sample_db)) !! 3%N
          = Some b' ∧
        user b' = 42%N ∧ flight b' = 2%N ∧ users sample_db !! 42%N = None.
Proof.
  destruct (bookingRouter_patch_overwrites 3%N
              (mkBookingBody (Some 42%N) None) sample_db eq_refl) as (H & _).
  destruct (H (mkBooking 1%N 2%N) eq_refl) as (b' & E & _ & Hu & Hf & _).
  exists b'. cbn in Hu, Hf. auto.
Defined.

(** ** Flights *)

(** The body of a flight-create request that carries all eight fields. *)
Lemma new_flight_complete (oid : ObjectId) (f : Flight) (db : Db) :
  new_flight oid
    (mkFlightBody (Some (airline f)) (Some (flightNo f)) (Some (departure f))
       (Some (arrival f)) (Some (departureTime f)) (Some (arrivalTime f))
       (Some (seats f)) (Some (price f))) db
  = (Ok (oid, f), db).
Proof. now destruct f. Qed.

(** X13: a flight added is a flight found: on a usable store, a
    flight-create request with all eight fields under an unused identifier
    answers 201 with the record, and looking that identifier up afterwards
    answers 200 with the same record; the flights stored before are still
    stored. *)
Theorem flightRouter_post_then_get_id (oid : ObjectId) (f : Flight) (db : Db) :
  connected db = true →
  flights db !! oid = None →
  let req := mkFlightBody (Some (airline f)) (Some (flightNo f))
               (Some (departure f)) (Some (arrival f))
               (Some (departureTime f)) (Some (arrivalTime f))
               (Some (seats f)) (Some (price f)) in
  let out := flightRouter_post oid req db in
  fst out = respond 201 (JObject [("message", JString "Flight added");
                                  ("flight", flight_json (oid, f))]) ∧
  fst (flightRouter_get_id oid (snd out))
    = respond 200 (JObject [("Flight Data", flight_json (oid, f))]) ∧
  (∀ j g, flights db !! j = Some g → flights (snd out) !! j = Some g).
Proof.
  intros C Fresh req out. subst req out.
  unfold flightRouter_post, route, bind at 1.
  rewrite new_flight_complete. run_handler C. rewrite Fresh. run_handler C.
  split; [reflexivity|]. split.
  - unfold flightRouter_get_id. run_handler C.
    rewrite lookup_insert_eq. reflexivity.
  - intros j g E. rewrite lookup_insert_ne; [assumption|congruence].
Qed.

Lemma flightRouter_post_then_get_id_witness :
  fst (flightRouter_get_id 6%N
         (snd (flightRouter_post 6%N
                 (mkFlightBody (Some "Air India") (Some "AI101") (Some "DEL")
                    (Some "BOM") (Some 1700000000000) (Some 1700007200000)
                    (Some 180) (Some 5500)) sample_db)))
    = respond 200 (JObject [("Flight Data", flight_json (6%N, ai101))]).
Proof.
  destruct (flightRouter_post_then_get_id 6%N ai101 sample_db
              eq_refl eq_refl) as (_ & Hget & _).
  exact Hget.
Defined.

(** X14: on a usable store the lookup of a flight by identifier answers
    200 with the stored record under the key ["Flight Data"] when the
    identifier resolves, and NotFound "Flight not found" when it does not;
    it answers 200 exactly when the identifier resolves. *)
Theorem flightRouter_get_id_found (id : ObjectId) (db : Db) :
  connected db = true →
  (∀ f, flights db !! id = Some f →
        fst (flightRouter_get_id id db)
          = respond 200 (JObject [("Flight Data", flight_json (id, f))])) ∧
  (flights db !! id = None →
     fst (flightRouter_get_id id db)
       = respond 404 (message "Flight not found")) ∧
  (status (fst (flightRouter_get_id id db)) = 200
     ↔ is_Some (flights db !! id)).
Proof.
  intros C. unfold flightRouter_get_id. run_handler C.
  destruct (flights db !! id) as [f|]; cbn.
  - repeat split; intros; simplify_eq; eauto.
  - repeat split; intros; absurd_some; simplify_eq; eauto.
Qed.

Lemma flightRouter_get_id_found_witness :
  fst (flightRouter_get_id 2%N sample_db)
    = respond 200 (JObject [("Flight Data", flight_json (2%N, ai101))]) ∧
  fst (flightRouter_get_id 8%N sample_db)
    = respond 404 (message "Flight not found").
Proof.
  split.
  - destruct (flightRouter_get_id_found 2%N sample_db eq_refl) as (H & _).
    apply H. reflexivity.
  - destruct (flightRouter_get_id_found 8%N sample_db eq_refl) as (_ & H & _).
    apply H. reflexivity.
Defined.

(** X15: deleting a flight a second time changes nothing more: the second
    call gives the answer and the store of the first, whatever the state of
    the connection.  On a usable store a deletion leaves the other Flights,
    the Users and the Bookings, those on the deleted flight among them, as
    they were, and the whole store when the identifier resolves to
    nothing. *)
Theorem flightRouter_delete_twice (id : ObjectId) (db : Db) :
  flightRouter_delete id (snd (flightRouter_delete id db))
    = (fst (flightRouter_delete id db), snd (flightRouter_delete id db)) ∧
  (connected db = true →
     (∀ j, j ≠ id →
           flights (snd (flightRouter_delete id db)) !! j = flights db !! j) ∧
     users (snd (flightRouter_delete id db)) = users db ∧
     bookings (snd (flightRouter_delete id db)) = bookings db ∧
     (flights db !! id = None → snd (flightRouter_delete id db) = db)).
Proof.
  split.
  - unfold flightRouter_delete.
    destruct (connected db) eqn:C; run_handler C.
    + now rewrite delete_delete_eq.
    + reflexivity.
  - intros C. unfold flightRouter_delete. run_handler C.
    split; [intros j Hj; now apply lookup_delete_ne|].
    split; [reflexivity|]. split; [reflexivity|].
    intros E. rewrite (delete_id _ _ E).
    destruct db; cbn in *; now subst.
Qed.

Lemma flightRouter_delete_twice_witness :
  snd (flightRouter_delete 8%N sample_db) = sample_db ∧
  bookings (snd (flightRouter_delete 2%N sample_db)) = bookings sample_db.
Proof.
  destruct (flightRouter_delete_twice 8%N sample_db) as (_ & H8).
  destruct (flightRouter_delete_twice 2%N sample_db) as (_ & H2).
  destruct (H8 eq_refl) as (_ & _ & _ & Hsame).
  destruct (H2 eq_refl) as (_ & _ & Hb & _).
  split; [apply Hsame; reflexivity | exact Hb].
Defined.

(** X16: on a usable store the flight listing answers 200 with a bare
    array of as many records as there are stored Flights, one for each of
    them with its identifier and its eight fields, and leaves the store as
    it was. *)
Theorem flightRouter_get_lists_all (db : Db) :
  connected db = true →
  ∃ records : list Json,
    flightRouter_get db = (respond 200 (JArray records), db) ∧
    length records = size (flights db) ∧
    ∀ (id : ObjectId) (f : Flight), flights db !! id = Some f →
      flight_json (id, f) ∈ records.
Proof.
  intros C. eexists. split; [|split].
  - unfold flightRouter_get. apply route_ok.
    unfold bind, find. rewrite storage_connected by assumption.
    reflexivity.
  - rewrite length_fmap. cbn. apply length_map_to_list.
  - intros id f E. apply list_elem_of_fmap. exists (id, f).
    split; [reflexivity|]. now apply elem_of_map_to_list.
Qed.

Lemma flightRouter_get_lists_all_witness :
  ∃ records : list Json,
    flightRouter_get sample_db = (respond 200 (JArray records), sample_db) ∧
    flight_json (2%N, ai101) ∈ records.
Proof.
  destruct (flightRouter_get_lists_all sample_db eq_refl)
    as (records & Hr & _ & Hall).
  exists records. split; [exact Hr|]. apply Hall. reflexivity.
Defined.

(** ** Handlers in sequence *)

(** X17: a booking made shows on the dashboard: after a booking-create
    request for a stored User and a stored Flight under an unused
    identifier, on a usable store, the dashboard listing has an entry with
    the new identifier whose [user] and [flight] are the two records as
    stored. *)
Theorem bookingRouter_post_then_dashboard
    (oid uid fid : ObjectId) (u : User) (f : Flight) (db : Db) :
  connected db = true →
  bookings db !! oid = None →
  users db !! uid = Some u →
  flights db !! fid = Some f →
  let db' := snd (bookingRouter_post oid
                    (mkBookingBody (Some uid) (Some fid)) db) in
  ∃ entries e,
    bookingRouter_dashboard db' = (respond 200 (JArray entries), db') ∧
    e ∈ entries ∧
    json_field "_id" e = Some (JObjectId oid) ∧
    json_field "user" e = Some (user_json (uid, u)) ∧
    json_field "flight" e = Some (flight_json (fid, f)).
Proof.
  intros C Fresh Eu Ef db'.
  assert (Hdb' : db' = set_collection
                         (<[oid := mkBooking uid fid]> (bookings db)) db).
  { subst db'. unfold bookingRouter_post. run_handler C.
    rewrite Eu, Ef. run_handler C. rewrite Fresh. run_handler C.
    reflexivity. }
  rewrite Hdb'. rewrite bookingRouter_dashboard_run by exact C.
  eexists _, _. split; [reflexivity|]. split.
  - apply list_elem_of_fmap. exists (oid, mkBooking uid fid).
    split; [reflexivity|]. apply elem_of_map_to_list. cbn.
    apply lookup_insert_eq.
  - cbn. rewrite Eu, Ef. repeat split.
Qed.

Lemma bookingRouter_post_then_dashboard_witness :
  ∃ entries e,
    fst (bookingRouter_dashboard
           (snd (bookingRouter_post 9%N
                   (mkBookingBody (Some 5%N) (Some 2%N)) sample_db)))
      = respond 200 (JArray entries) ∧
    e ∈ entries ∧
    json_field "user" e = Some (user_json (5%N, bob)).
Proof.
  destruct (bookingRouter_post_then_dashboard 9%N 5%N 2%N bob ai101 sample_db
              eq_refl eq_refl eq_refl eq_refl)
    as (entries & e & Hr & Hin & _ & Hu & _).
  exists entries, e. split; [exact (f_equal fst Hr)|]. auto.
Defined.

(** The lookup by email on a store where one identifier only carries the
    email. *)
Lemma findOne_email_unique (e : string) (m : gmap ObjectId User)
    (id : ObjectId) (u : User) :
  m !! id = Some u → email u = e →
  (∀ j v, m !! j = Some v → email v = e → j = id) →
  head (filter (λ d : Doc User, email_is (Some e) (snd d) = true)
          (map_to_list m)) = Some (id, u).
Proof.
  intros Eu Ee Huniq.
  destruct (findOne_email_Some e m) as (j & v & -> & Ej & Ev); [eauto|].
  pose proof (Huniq j v Ej Ev) as ->. congruence.
Qed.

(** X18: register, then log in.  On a usable store where no User has the
    email yet, after a registration under an unused identifier a login with
    the same email and password answers 200 with a token that names the new
    User, provided bcrypt verifies the password against the hash it made of
    it. *)
Theorem userRouter_register_then_login `{Bcrypt}
    (oid : ObjectId) (salt n e p : string) (now : Z) (db : Db) :
  connected db = true →
  users db !! oid = None →
  (∀ id u, users db !! id = Some u → email u ≠ e) →
  checkpw p (hashpw p 5 salt) = true →
  let db' := snd (userRouter_register oid salt
                    (mkUserBody (Some n) (Some e) (Some p)) db) in
  fst (userRouter_login now (mkLoginBody (Some e) (Some p)) db')
    = respond 200 (JObject [("message", JString "User logged in");
                            ("token",
                             JToken (mkJwt oid now (now + 3600) "secret"))]).
Proof.
  intros C Fresh Hno Hcheck db'.
  assert (Hdb' : db' = set_collection
                         (<[oid := mkUser n e (hashpw p 5 salt)]> (users db))
                         db).
  { subst db'. unfold userRouter_register, bcrypt_hash, new_user.
    run_handler C. rewrite Fresh. run_handler C. reflexivity. }
  rewrite Hdb'. rewrite userRouter_login_run by exact C. cbn [fst].
  cbn [users set_collection UserModel].
  rewrite (findOne_email_unique e _ oid (mkUser n e (hashpw p 5 salt))).
  - cbn. now rewrite Hcheck.
  - apply lookup_insert_eq.
  - reflexivity.
  - intros j v Ej Ev.
    apply lookup_insert_Some in Ej as [[-> _] | [_ Ej]]; [reflexivity|].
    now destruct (Hno j v Ej).
Qed.

Lemma userRouter_register_then_login_witness :
  fst (userRouter_login (H := toy_bcrypt) 1000
         (mkLoginBody (Some "carol@example.com") (Some "pw"))
         (snd (userRouter_register (H := toy_bcrypt) 6%N "$2b$05$salt"
                 (mkUserBody (Some "Carol") (Some "carol@example.com")
                             (Some "pw")) sample_db)))
    = respond 200 (JObject [("message", JString "User logged in");
                            ("token",
                             JToken (mkJwt 6%N 1000 4600 "secret"))]).
Proof.
  apply (userRouter_register_then_login (H := toy_bcrypt) 6%N "$2b$05$salt"
           "Carol" "carol@example.com" "pw" 1000 sample_db eq_refl eq_refl).
  - intros id u E.
    apply elem_of_map_to_list, list_elem_of_In in E. vm_compute in E.
    destruct E as [[= <- <-]|[[= <- <-]|[]]]; discriminate.
  - reflexivity.
Defined.

(** X19: a password set through the update route is stored as supplied
    and compared as if it were a hash.  On a usable store, after an update
    of a stored User, the only one with its email, that carries a password,
    a login with that email and that password succeeds exactly when bcrypt
    verifies the password against itself, and answers Unauthorized
    "password wrong" otherwise. *)
Theorem userRouter_patch_password_then_login `{Bcrypt}
    (id : ObjectId) (u : User) (p : string) (now : Z) (db : Db) :
  connected db = true →
  users db !! id = Some u →
  (∀ j v, users db !! j = Some v → email v = email u → j = id) →
  let db' := snd (userRouter_patch id (mkUserBody None None (Some p)) db) in
  users db' !! id = Some (mkUser (name u) (email u) p) ∧
  fst (userRouter_login now (mkLoginBody (Some (email u)) (Some p)) db')
    = if checkpw p p
      then respond 200 (JObject [("message", JString "User logged in");
                                 ("token",
                                  JToken (mkJwt id now (now + 3600) "secret"))])
      else respond 401 (message "password wrong").
Proof.
  intros C Eu Huniq db'.
  assert (Hdb' : db' = set_collection
                         (<[id := mkUser (name u) (email u) p]> (users db))
                         db).
  { subst db'. unfold userRouter_patch. run_handler C. rewrite Eu.
    reflexivity. }
  rewrite Hdb'. split; [apply lookup_insert_eq|].
  rewrite userRouter_login_run by exact C. cbn [fst].
  cbn [users set_collection UserModel].
  rewrite (findOne_email_unique (email u) _ id (mkUser (name u) (email u) p)).
  - reflexivity.
  - apply lookup_insert_eq.
  - reflexivity.
  - intros j v Ej Ev.
    apply lookup_insert_Some in Ej as [[-> _] | [_ Ej]]; [reflexivity|].
    exact (Huniq j v Ej Ev).
Qed.

Lemma userRouter_patch_password_then_login_witness :
  users (snd (userRouter_patch 1%N (mkUserBody None None (Some "new-pw"))
                sample_db)) !! 1%N
    = Some (mkUser "Alice" "alice@example.com" "new-pw").
Proof.
  destruct (userRouter_patch_password_then_login (H := toy_bcrypt) 1%N alice
              "new-pw" 1000 sample_db eq_refl eq_refl) as (Hs & _).
  - intros j v E Ev.
    apply elem_of_map_to_list, list_elem_of_In in E. vm_compute in E.
    destruct E as [[= <- <-]|[[= <- <-]|[]]];
      first [reflexivity | vm_compute in Ev; discriminate].
  - exact Hs.
Defined.

(** ** An unusable connection *)

(** X20: when the connection to the store is not usable, every handler
    answers InternalError, whatever the request. *)
Theorem handlers_on_unusable_connection `{Bcrypt} (db : Db) :
  connected db = false →
  (InternalError (fst (userRouter_get db)) ∧
   ∀ oid salt req, InternalError (fst (userRouter_register oid salt req db))) ∧
  (∀ now req, InternalError (fst (userRouter_login now req db))) ∧
  (∀ id, InternalError (fst (userRouter_delete id db))) ∧
  (∀ id req, InternalError (fst (userRouter_patch id req db))) ∧
  InternalError (fst (flightRouter_get db)) ∧
  (∀ oid req, InternalError (fst (flightRouter_post oid req db))) ∧
  (∀ id, InternalError (fst (flightRouter_get_id id db))) ∧
  (∀ id req, InternalError (fst (flightRouter_patch id req db))) ∧
  (∀ id, InternalError (fst (flightRouter_delete id db))) ∧
  InternalError (fst (bookingRouter_dashboard db)) ∧
  (∀ oid req, InternalError (fst (bookingRouter_post oid req db))) ∧
  (∀ id req, InternalError (fst (bookingRouter_patch id req db))) ∧
  (∀ id, InternalError (fst (bookingRouter_delete id db))).
Proof.
  intros C. repeat apply conj; intros *.
  - unfold userRouter_get. every_branch; close_branch.
  - unfold userRouter_register. every_branch; close_branch.
  - unfold userRouter_login. every_branch; close_branch.
  - unfold userRouter_delete. every_branch; close_branch.
  - unfold userRouter_patch. every_branch; close_branch.
  - unfold flightRouter_get. every_branch; close_branch.
  - unfold flightRouter_post. every_branch; close_branch.
  - unfold flightRouter_get_id. every_branch; close_branch.
  - unfold flightRouter_patch. every_branch; close_branch.
  - unfold flightRouter_delete. every_branch; close_branch.
  - unfold bookingRouter_dashboard, route, bind at 1, find.
    now rewrite storage_disconnected.
  - unfold bookingRouter_post. every_branch; close_branch.
  - unfold bookingRouter_patch. every_branch; close_branch.
  - unfold bookingRouter_delete. every_branch; close_branch.
Qed.

Lemma handlers_on_unusable_connection_witness :
  InternalError
    (fst (flightRouter_delete 2%N (mkDb ∅ {[ 2%N := ai101 ]} ∅ false))) ∧
  InternalError
    (fst (bookingRouter_dashboard (mkDb ∅ {[ 2%N := ai101 ]} ∅ false))).
Proof.
  destruct (handlers_on_unusable_connection (H := toy_bcrypt)
              (mkDb ∅ {[ 2%N := ai101 ]} ∅ false) eq_refl)
    as (_ & _ & _ & _ & _ & _ & _ & _ & Hdel & Hdash & _).
  split; [apply Hdel | exact Hdash].
Defined.

(** ** Updates repeated, and updates that carry nothing *)

Lemma set_user_twice (n e p : option string) (u : User) :
  set_user n e p (set_user n e p u) = set_user n e p u.
Proof. now destruct n, e, p. Qed.

Lemma set_flight_twice (b : FlightBody) (f : Flight) :
  set_flight b (set_flight b f) = set_flight b f.
Proof.
  unfold set_flight; cbn.
  now destruct (b_airline b), (b_flightNo b), (b_departure b), (b_arrival b),
    (b_departureTime b), (b_arrivalTime b), (b_seats b), (b_price b).
Qed.

(** The update handlers as functions of the state of the connection and of
    what is stored under the identifier. *)
Lemma userRouter_patch_run (id : ObjectId) (req : UserBody) (db : Db) :
  userRouter_patch id req db =
    if connected db then
      match users db !! id with
      | Some u =>
          (respond_empty 204,
           set_collection
             (<[id := set_user (b_name req) (b_email req) (b_password req) u]>
                (users db)) db)
      | None => (respond 404 (message "User not found"), db)
      end
    else (respond 500 (message "Internal server error"), db).
Proof.
  unfold userRouter_patch.
  destruct (connected db) eqn:C; run_handler C; [|reflexivity].
  now destruct (users db !! id).
Qed.

Lemma flightRouter_patch_run (id : ObjectId) (req : FlightBody) (db : Db) :
  flightRouter_patch id req db =
    if connected db then
      match flights db !! id with
      | Some f =>
          (respond 200 (flight_json (id, set_flight req f)),
           set_collection (<[id := set_flight req f]> (flights db)) db)
      | None => (respond 404 (message "Flight not found"), db)
      end
    else (respond 500 (message "Internal server error"), db).
Proof.
  unfold flightRouter_patch.
  destruct (connected db) eqn:C; run_handler C; [|reflexivity].
  now destruct (flights db !! id).
Qed.

Lemma bookingRouter_patch_run (id : ObjectId) (req : BookingBody) (db : Db) :
  bookingRouter_patch id req db =
    if connected db then
      match bookings db !! id with
      | Some b =>
          (respond_empty 204,
           set_collection
             (<[id := snd (assign_booking (id, b) req)]> (bookings db)) db)
      | None => (respond 404 (message "Booking not found"), db)
      end
    else (respond 500 (message "Internal server error"), db).
Proof.
  unfold bookingRouter_patch.
  destruct (connected db) eqn:C; run_handler C; [|reflexivity].
  destruct (bookings db !! id); run_handler C; reflexivity.
Qed.

(** X21: the user and the booking update routes are idempotent: for an
    update body made of the fields the handler writes (name, email and
    password; the user and flight references), sending it a second time
    gives the answer and the store of the first, whatever the store and
    the state of the connection. *)
Theorem patch_twice (id : ObjectId) (db : Db) :
  (∀ req, userRouter_patch id req (snd (userRouter_patch id req db))
          = userRouter_patch id req db) ∧
  (∀ req, bookingRouter_patch id req (snd (bookingRouter_patch id req db))
          = bookingRouter_patch id req db).
Proof.
  repeat apply conj; intros req.
  - rewrite (userRouter_patch_run id req db).
    destruct (connected db) eqn:C;
      [destruct (users db !! id) as [u|] eqn:E|];
      cbn [snd]; rewrite userRouter_patch_run; cbn; rewrite C; try reflexivity.
    + rewrite lookup_insert_eq, set_user_twice, insert_insert_eq.
      reflexivity.
    + now rewrite E.
  - rewrite (bookingRouter_patch_run id req db).
    destruct (connected db) eqn:C;
      [destruct (bookings db !! id) as [b|] eqn:E|];
      cbn [snd]; rewrite bookingRouter_patch_run; cbn; rewrite C;
      try reflexivity.
    + rewrite lookup_insert_eq, insert_insert_eq. cbn.
      now destruct (b_user req), (b_flight req).
    + now rewrite E.
Qed.

(** X25: a flight update that carries flight fields only, any of the eight
    and no update operator, is idempotent: sending it a second time gives
    the answer and the store of the first, whatever the store and the
    state of the connection. *)
Theorem flightRouter_patch_twice
    (id : ObjectId) (req : FlightBody) (db : Db) :
  flightRouter_patch id req (snd (flightRouter_patch id req db))
    = flightRouter_patch id req db.
Proof.
  rewrite (flightRouter_patch_run id req db).
  destruct (connected db) eqn:C;
    [destruct (flights db !! id) as [f|] eqn:E|];
    cbn [snd]; rewrite flightRouter_patch_run; cbn; rewrite C;
    try reflexivity.
  - rewrite lookup_insert_eq, set_flight_twice, insert_insert_eq.
    reflexivity.
  - now rewrite E.
Qed.

(** X22: an update that carries no field changes nothing: for a stored
    User it answers 204, for a stored Flight 200 with the record as
    stored, and the store is the one before the call. *)
Theorem patch_without_fields (id : ObjectId) (db : Db) :
  connected db = true →
  (is_Some (users db !! id) →
     userRouter_patch id (mkUserBody None None None) db
       = (respond_empty 204, db)) ∧
  (∀ f, flights db !! id = Some f →
     flightRouter_patch id
       (mkFlightBody None None None None None None None None) db
       = (respond 200 (flight_json (id, f)), db)).
Proof.
  intros C. split.
  - intros [u E]. unfold userRouter_patch. run_handler C. rewrite E. cbn.
    f_equal. destruct u as [n e p]. unfold set_user. cbn.
    rewrite (insert_id _ _ _ E). destruct db; cbn in *; now subst.
  - intros f E. unfold flightRouter_patch. run_handler C. rewrite E. cbn.
    destruct f as [al fn dp ar dt at_ st pr]. unfold set_flight. cbn.
    f_equal. rewrite (insert_id _ _ _ E). destruct db; cbn in *; now subst.
Qed.

Lemma patch_without_fields_witness :
  userRouter_patch 1%N (mkUserBody None None None) sample_db
    = (respond_empty 204, sample_db) ∧
  flightRouter_patch 2%N
    (mkFlightBody None None None None None None None None) sample_db
    = (respond 200 (flight_json (2%N, ai101)), sample_db).
Proof.
  destruct (patch_without_fields 1%N sample_db eq_refl) as (Hu & _).
  destruct (patch_without_fields 2%N sample_db eq_refl) as (_ & Hf).
  split; [apply Hu; eexists; reflexivity | apply Hf; reflexivity].
Defined.

(** ** Status codes *)

(** X23: the status codes each handler can answer with, whatever the
    request, the store and the state of the connection.  The register
    handler answers 201 or 500 and never 400; the flight deletion answers
    200 or 500 and never 404. *)
Theorem handler_status_codes `{Bcrypt} (db : Db) :
  (status (fst (userRouter_get db)) ∈ [200; 500]) ∧
  (∀ oid salt req,
     status (fst (userRouter_register oid salt req db)) ∈ [201; 500]) ∧
  (∀ now req, status (fst (userRouter_login now req db)) ∈ [200; 401; 500]) ∧
  (∀ id, status (fst (userRouter_delete id db)) ∈ [204; 404; 500]) ∧
  (∀ id req, status (fst (userRouter_patch id req db)) ∈ [204; 404; 500]) ∧
  (status (fst (flightRouter_get db)) ∈ [200; 500]) ∧
  (∀ oid req, status (fst (flightRouter_post oid req db)) ∈ [201; 500]) ∧
  (∀ id, status (fst (flightRouter_get_id id db)) ∈ [200; 404; 500]) ∧
  (∀ id req, status (fst (flightRouter_patch id req db)) ∈ [200; 404; 500]) ∧
  (∀ id, status (fst (flightRouter_delete id db)) ∈ [200; 500]) ∧
  (status (fst (bookingRouter_dashboard db)) ∈ [200; 500]) ∧
  (∀ oid req,
     status (fst (bookingRouter_post oid req db)) ∈ [201; 404; 500]) ∧
  (∀ id req, status (fst (bookingRouter_patch id req db)) ∈ [204; 404; 500]) ∧
  (∀ id, status (fst (bookingRouter_delete id db)) ∈ [202; 404; 500]).
Proof.
  repeat apply conj; intros *.
  - unfold userRouter_get. every_branch; set_solver.
  - unfold userRouter_register. every_branch; set_solver.
  - unfold userRouter_login. every_branch; set_solver.
  - unfold userRouter_delete. every_branch; set_solver.
  - unfold userRouter_patch. every_branch; set_solver.
  - unfold flightRouter_get. every_branch; set_solver.
  - unfold flightRouter_post. every_branch; set_solver.
  - unfold flightRouter_get_id. every_branch; set_solver.
  - unfold flightRouter_patch. every_branch; set_solver.
  - unfold flightRouter_delete. every_branch; set_solver.
  - unfold bookingRouter_dashboard, route, bind at 1.
    destruct (find db) as [[bs|e] db1]; [|set_solver].
    unfold bind.
    destruct (promise_all populate bs db1) as [[ys|e] db2]; set_solver.
  - unfold bookingRouter_post. every_branch; set_solver.
  - unfold bookingRouter_patch. every_branch; set_solver.
  - unfold bookingRouter_delete. every_branch; set_solver.
Qed.

(** ** Listings list stored records only *)

(** X24: on a usable store every entry of the dashboard listing is the
    entry of a stored Booking, and every record of the user listing is a
    stored User. *)
Theorem listings_list_stored_records_only (db : Db) :
  connected db = true →
  (∀ entries, fst (bookingRouter_dashboard db) = respond 200 (JArray entries) →
     ∀ e, e ∈ entries →
       ∃ id b, bookings db !! id = Some b ∧
               json_field "_id" e = Some (JObjectId id)) ∧
  (∀ records,
     fst (userRouter_get db) = respond 200 (JObject [("users", JArray records)]) →
     ∀ r, r ∈ records →
       ∃ id u, users db !! id = Some u ∧ r = user_json (id, u)).
Proof.
  intros C. split.
  - intros entries Hr e Hin.
    rewrite bookingRouter_dashboard_run in Hr by assumption.
    cbn in Hr. injection Hr as <-.
    apply list_elem_of_fmap in Hin as ([id b] & -> & Hin).
    apply elem_of_map_to_list in Hin. exists id, b. split; [assumption|].
    reflexivity.
  - intros records Hr r Hin. unfold userRouter_get in Hr.
    revert Hr. run_handler C. intros [= <-].
    apply list_elem_of_fmap in Hin as ([id u] & -> & Hin).
    apply elem_of_map_to_list in Hin. eauto.
Qed.

Lemma listings_list_stored_records_only_witness :
  ∃ id u, users sample_db !! id = Some u ∧
          user_json (1%N, alice) = user_json (id, u).
Proof.
  destruct (listings_list_stored_records_only sample_db eq_refl) as (_ & H).
  apply (H (user_json <$> map_to_list (users sample_db)) eq_refl).
  apply list_elem_of_fmap. exists (1%N, alice). split; [reflexivity|].
  apply (proj2 (elem_of_map_to_list (users sample_db) 1%N alice)).
  reflexivity.
Defined.
